(** * Tensho-893 backend: a shallow embedding of [backend/server.py]

    The service is a FastAPI application over a MongoDB database.  Its
    handlers are sequences of datastore calls, model constructions and
    [raise HTTPException]; they are embedded here as computations in a
    state-and-exception monad over a [world] that holds

    - the database: the three collections [festivals], [dj_profiles] and
      [ticket_reservations], each an ordered list of documents
      ([find_one] answers with the first match, [find().to_list(n)] with
      the first [n] documents, [insert_one] adds at the end);
    - the two sources of fresh values that the pydantic default factories
      draw from: [uuid.uuid4] and [datetime.utcnow].

    A collection keeps the documents that [Model.dict()] produced as the
    record they were built from, and [Model( **doc )] on such a document
    gives that record back (the [_id] key MongoDB adds is not a field of
    any model and pydantic drops it).  Python integers are unbounded and are
    embedded as [Z]; strings are byte strings (UTF-8).

    The [insert_one_...] calls below are the inserts of documents the driver
    can encode.  The driver encodes an integer in at most 8 bytes; what the
    reservation handler does with a document beyond that is embedded
    separately, as [create_ticket_reservation_encoded], which agrees with
    [create_ticket_reservation] on every document within the limit. *)

From Stdlib Require Import String DecimalString DecimalNat ZArith List Bool Lia.
Import ListNotations.

Open Scope string_scope.
Open Scope list_scope.
Open Scope Z_scope.

(** ** Python values held by the [dict] and [List[dict]] fields *)

Set Warnings "-register-all".

Inductive pyval : Type :=
| PStr (s : string)
| PInt (n : Z)
| PList (l : list pyval)
| PDict (d : list (string * pyval)).

(** A Python [dict] with string keys, in insertion order. *)
Definition pydict (V : Type) : Type := list (string * V).

(** [d.get(key)] *)
Fixpoint dict_get {V : Type} (d : pydict V) (key : string) : option V :=
  match d with
  | [] => None
  | (k, v) :: rest => if String.eqb k key then Some v else dict_get rest key
  end.

(** [d.get(key, default)] *)
Definition dict_get_default {V : Type} (d : pydict V) (key : string) (default : V) : V :=
  match dict_get d key with
  | Some v => v
  | None => default
  end.


(** [datetime] values, as a count of microseconds. *)
Definition datetime : Type := Z.

(** ** The pydantic models *)

Module Festival.
Record t : Type := mk {
  id : string;
  name : string;
  year : Z;
  location : string;
  date : string;
  description : string;
  venue_info : pydict pyval;
  sound_system : pydict pyval;
  family_services : list (pydict pyval);
  ticket_info : pydict pyval;
  created_at : datetime
}.

(** [Festival( **festival )] on a stored document. *)
Definition validate (festival : t) : t := festival.
End Festival.

Module DJProfile.
Record t : Type := mk {
  id : string;
  name : string;
  stage_name : string;
  location : string;
  music_styles : list string;
  career_start : Z;
  bio : string;
  philosophy : pydict pyval;
  timeline : list (pydict pyval);
  social_links : pydict pyval;
  created_at : datetime
}.

(** [DJProfile( **dj )] on a stored document. *)
Definition validate (dj : t) : t := dj.
End DJProfile.

Module TicketReservation.
Record t : Type := mk {
  id : string;
  festival_id : string;
  name : string;
  email : string;
  phone : string;
  ticket_type : string;
  quantity : Z;
  total_price : Z;
  status : string;
  created_at : datetime
}.
End TicketReservation.

Module NFTMoment.
Record t : Type := mk {
  id : string;
  title : string;
  description : string;
  image_base64 : string;
  moment_timestamp : string;
  rarity : string;
  attributes : pydict pyval;
  created_at : datetime
}.
End NFTMoment.

Module TicketReservationCreate.
Record t : Type := mk {
  festival_id : string;
  name : string;
  email : string;
  phone : string;
  ticket_type : string;
  quantity : Z
}.
End TicketReservationCreate.

(** ** The world the handlers run in *)

Record database : Type := mk_database {
  festivals : list Festival.t;
  dj_profiles : list DJProfile.t;
  ticket_reservations : list TicketReservation.t
}.

Record world : Type := mk_world {
  db : database;
  uuid_source : nat -> string;   (* the k-th value uuid4 hands out *)
  uuid_drawn : nat;              (* how many were handed out so far *)
  clock : nat -> datetime;       (* the k-th reading of utcnow *)
  clock_read : nat               (* how many readings were taken so far *)
}.

Record HTTPException : Type := mk_HTTPException {
  status_code : Z;
  detail : string
}.

Inductive outcome (A : Type) : Type :=
| Return (a : A)
| Raise (e : HTTPException).

Arguments Return {A} a.
Arguments Raise {A} e.

(** A handler: it reads and updates the world and either returns or raises. *)
Definition M (A : Type) : Type := world -> outcome A * world.

Definition ret {A : Type} (a : A) : M A := fun w => (Return a, w).

Definition bind {A B : Type} (m : M A) (k : A -> M B) : M B :=
  fun w =>
    match m w with
    | (Return a, w') => k a w'
    | (Raise e, w') => (Raise e, w')
    end.

Definition raise {A : Type} (e : HTTPException) : M A := fun w => (Raise e, w).

Declare Scope handler_scope.
Delimit Scope handler_scope with handler.
Notation "x <- m ;; k" := (bind m (fun x => k))
  (at level 100, m at next level, right associativity) : handler_scope.
Notation "m ;; k" := (bind m (fun _ => k))
  (at level 100, right associativity) : handler_scope.
Open Scope handler_scope.

(** *** Fresh values *)

(** [str(uuid.uuid4())] *)
Definition uuid4 : M string :=
  fun w => (Return (uuid_source w (uuid_drawn w)),
            mk_world (db w) (uuid_source w) (S (uuid_drawn w)) (clock w) (clock_read w)).

(** [datetime.utcnow()] *)
Definition utcnow : M datetime :=
  fun w => (Return (clock w (clock_read w)),
            mk_world (db w) (uuid_source w) (uuid_drawn w) (clock w) (S (clock_read w))).

(** *** Datastore calls *)

Definition set_db (w : world) (d : database) : world :=
  mk_world d (uuid_source w) (uuid_drawn w) (clock w) (clock_read w).

(** [await db.<collection>.find_one({field: value})]: the first document of
    the collection whose field has that value, [None] when there is none. *)
Definition find_one {D : Type} (collection : database -> list D)
    (field : D -> string) (value : string) : M (option D) :=
  fun w => (Return (find (fun doc => String.eqb (field doc) value) (collection (db w))), w).

(** [await db.<collection>.find().to_list(length)] *)
Definition find_to_list {D : Type} (collection : database -> list D)
    (length : nat) : M (list D) :=
  fun w => (Return (firstn length (collection (db w))), w).

(** [await db.festivals.insert_one(doc)] *)
Definition insert_one_festival (doc : Festival.t) : M unit :=
  fun w => (Return tt,
            set_db w (mk_database (festivals (db w) ++ [doc])
                                  (dj_profiles (db w))
                                  (ticket_reservations (db w)))).

(** [await db.dj_profiles.insert_one(doc)] *)
Definition insert_one_dj_profile (doc : DJProfile.t) : M unit :=
  fun w => (Return tt,
            set_db w (mk_database (festivals (db w))
                                  (dj_profiles (db w) ++ [doc])
                                  (ticket_reservations (db w)))).

(** [await db.ticket_reservations.insert_one(doc)], for a document the driver
    can encode; [insert_one_ticket_reservation_encoded] adds the driver's
    limit on integers. *)
Definition insert_one_ticket_reservation (doc : TicketReservation.t) : M unit :=
  fun w => (Return tt,
            set_db w (mk_database (festivals (db w))
                                  (dj_profiles (db w))
                                  (ticket_reservations (db w) ++ [doc]))).

(** *** Model constructors

    A model built from keyword arguments takes [id] and [created_at] from
    their default factories, in the order the fields are declared. *)

Definition new_Festival (name : string) (year : Z) (location date description : string)
    (venue_info sound_system : pydict pyval) (family_services : list (pydict pyval))
    (ticket_info : pydict pyval) : M Festival.t :=
  id <- uuid4 ;;
  created_at <- utcnow ;;
  ret (Festival.mk id name year location date description venue_info sound_system
         family_services ticket_info created_at).

Definition new_DJProfile (name stage_name location : string) (music_styles : list string)
    (career_start : Z) (bio : string) (philosophy : pydict pyval)
    (timeline : list (pydict pyval)) (social_links : pydict pyval) : M DJProfile.t :=
  id <- uuid4 ;;
  created_at <- utcnow ;;
  ret (DJProfile.mk id name stage_name location music_styles career_start bio
         philosophy timeline social_links created_at).

(** [TicketReservation( **reservation_data.dict(), total_price=total_price )];
    [status] takes its default. *)
Definition new_TicketReservation (reservation_data : TicketReservationCreate.t)
    (total_price : Z) : M TicketReservation.t :=
  id <- uuid4 ;;
  created_at <- utcnow ;;
  ret (TicketReservation.mk id
         (TicketReservationCreate.festival_id reservation_data)
         (TicketReservationCreate.name reservation_data)
         (TicketReservationCreate.email reservation_data)
         (TicketReservationCreate.phone reservation_data)
         (TicketReservationCreate.ticket_type reservation_data)
         (TicketReservationCreate.quantity reservation_data)
         total_price "pending" created_at).

Definition new_NFTMoment (title description image_base64 moment_timestamp rarity : string)
    (attributes : pydict pyval) : M NFTMoment.t :=
  id <- uuid4 ;;
  created_at <- utcnow ;;
  ret (NFTMoment.mk id title description image_base64 moment_timestamp rarity
         attributes created_at).

(** ** The seeding step and the handlers *)

Definition sample_festival : M Festival.t :=
  new_Festival
    "Moment Festival"
    2025
    "奈良県天川村 フォレスト・イン洞川"
    "2025年7月26日-27日"
    "自然と電子音楽が織りなす至福の瞬間。『今、この瞬間』へピントを合わせる音楽体験。"
    [ ("name", PStr "フォレスト・イン洞川");
      ("address", PStr "奈良県天川村");
      ("features", PList [PStr "神聖な自然環境"; PStr "温泉街"; PStr "キャンプ場"; PStr "清流"]);
      ("access", PStr "関西からアクセス良好な秘境の地") ]
    [ ("primary", PStr "Alcons Audio");
      ("secondary", PStr "Function One");
      ("description", PStr "プロ仕様ラインアレイスピーカーによる圧倒的な音質体験") ]
    [ [ ("name", PStr "キッズエリア");
        ("description", PStr "安全に配慮した専用エリア");
        ("icon", PStr "👶") ];
      [ ("name", PStr "こどもごはん");
        ("description", PStr "栄養バランスを考慮したメニュー");
        ("icon", PStr "🍱") ];
      [ ("name", PStr "保育士常駐");
        ("description", PStr "資格を持つスタッフが常駐");
        ("icon", PStr "👩‍⚕️") ];
      [ ("name", PStr "ワークショップ");
        ("description", PStr "多彩なアクティビティ");
        ("icon", PStr "🎨") ] ]
    [ ("early_bird", PDict [("price", PInt 15000); ("description", PStr "早割チケット")]);
      ("regular", PDict [("price", PInt 18000); ("description", PStr "一般チケット")]);
      ("vip", PDict [("price", PInt 35000); ("description", PStr "VIP体験チケット")]);
      ("family", PDict [("price", PInt 40000);
                        ("description", PStr "ファミリーパック(大人2名+子供2名)")]) ].

Definition sample_dj : M DJProfile.t :=
  new_DJProfile
    "Mike Senoh"
    "DJ Senoh"
    "大阪"
    ["Psytrance"; "Techno"; "Electronic Music"]
    2004
    "関西〜全国へとその場の空気感を大切にしたプレイが持ち味。Moment Festivalの主催者として、奈良県天川村での野外フェスティバルを成功に導き、家族も参加できる新しい形の音楽体験を提案し続けている。"
    [ ("meditation", PDict [ ("title", PStr "瞑想的体験");
                             ("description", PStr "音楽を通じて深い集中状態へと導き、内なる平静を見つける");
                             ("icon", PStr "🧘") ]);
      ("awareness", PDict [ ("title", PStr "瞬間の認識");
                            ("description", PStr "今この瞬間の価値を意識し、時間の流れに敏感になる");
                            ("icon", PStr "👁️") ]);
      ("permanence", PDict [ ("title", PStr "永続的価値");
                             ("description", PStr "一瞬の体験をNFTとして記録し、未来へと継承する");
                             ("icon", PStr "♾️") ]) ]
    [ [ ("year", PInt 2004); ("event", PStr "大阪のクラブ「exodus」オープニングでDJデビュー") ];
      [ ("year", PStr "2004-2014"); ("event", PStr "関西クラブシーンでPsytranceからTechnoまで幅広く活動") ];
      [ ("year", PStr "2014-2020"); ("event", PStr "全国各地のフェスティバル出演・イベント主催活動を拡大") ];
      [ ("year", PInt 2021); ("event", PStr "Moment Festivalを奈良県天川村で初開催") ];
      [ ("year", PStr "2021-2025"); ("event", PStr "Moment Festival拡大・音響システム強化・国際的アーティスト招聘") ];
      [ ("year", PStr "2024-2025"); ("event", PStr "DJ活動20周年 & Moment Festival 5周年記念") ] ]
    [ ("soundcloud", PStr "@djsenoh");
      ("facebook", PStr "DJ Senoh Official");
      ("instagram", PStr "@moment_jp");
      ("twitter", PStr "@moment_jp") ].

(** [startup_event]: each seed document is looked up by its name and
    inserted when the lookup finds nothing. *)
Definition startup_event : M unit :=
  existing_festival <- find_one festivals Festival.name "Moment Festival" ;;
  match existing_festival with
  | None =>
      festival_document <- sample_festival ;;
      insert_one_festival festival_document
  | Some _ => ret tt
  end ;;
  existing_dj <- find_one dj_profiles DJProfile.stage_name "DJ Senoh" ;;
  match existing_dj with
  | None =>
      dj_document <- sample_dj ;;
      insert_one_dj_profile dj_document
  | Some _ => ret tt
  end.

(** [GET /festivals] *)
Definition get_festivals : M (list Festival.t) :=
  festivals <- find_to_list festivals 1000 ;;
  ret (map Festival.validate festivals).

(** [GET /festivals/{festival_id}] *)
Definition get_festival (festival_id : string) : M Festival.t :=
  festival <- find_one festivals Festival.id festival_id ;;
  match festival with
  | None => raise (mk_HTTPException 404 "Festival not found")
  | Some festival => ret (Festival.validate festival)
  end.

(** [GET /dj-profile] *)
Definition get_dj_profile : M DJProfile.t :=
  dj <- find_one dj_profiles DJProfile.stage_name "DJ Senoh" ;;
  match dj with
  | None => raise (mk_HTTPException 404 "DJ Profile not found")
  | Some dj => ret (DJProfile.validate dj)
  end.

Definition ticket_prices : pydict Z :=
  [("early_bird", 15000); ("regular", 18000); ("vip", 35000); ("family", 40000)].

(** [POST /ticket-reservation] *)
Definition create_ticket_reservation (reservation_data : TicketReservationCreate.t)
    : M TicketReservation.t :=
  festival <- find_one festivals Festival.id
                (TicketReservationCreate.festival_id reservation_data) ;;
  match festival with
  | None => raise (mk_HTTPException 404 "Festival not found")
  | Some _ =>
      let total_price :=
        dict_get_default ticket_prices
          (TicketReservationCreate.ticket_type reservation_data) 18000
        * TicketReservationCreate.quantity reservation_data in
      reservation <- new_TicketReservation reservation_data total_price ;;
      insert_one_ticket_reservation reservation ;;
      ret reservation
  end.

(** [GET /nft-moments] *)
Definition get_nft_moments : M (list NFTMoment.t) :=
  moment1 <- new_NFTMoment
    "Sunrise Moment #001"
    "天川村の神聖な朝日とPsytranceが融合した瞬間"
    "data:image/svg+xml;base64,PHN2ZyB3aWR0aD0iMzAwIiBoZWlnaHQ9IjMwMCIgdmlld0JveD0iMCAwIDMwMCAzMDAiIGZpbGw9Im5vbmUiIHhtbG5zPSJodHRwOi8vd3d3LnczLm9yZy8yMDAwL3N2ZyI+CjxyZWN0IHdpZHRoPSIzMDAiIGhlaWdodD0iMzAwIiBmaWxsPSJibGFjayIvPgo8Y2lyY2xlIGN4PSIxNTAiIGN5PSIxNTAiIHI9IjUwIiBmaWxsPSJ3aGl0ZSIvPgo8dGV4dCB4PSIxNTAiIHk9IjIyMCIgZmlsbD0id2hpdGUiIHRleHQtYW5jaG9yPSJtaWRkbGUiIGZvbnQtZmFtaWx5PSJBcmlhbCIgZm9udC1zaXplPSIxOCI+U3VucmlzZSAjMDAxPC90ZXh0Pgo8L3N2Zz4K"
    "2024-07-26T06:30:00Z"
    "legendary"
    [("location", PStr "天川村"); ("genre", PStr "Psytrance"); ("time", PStr "Sunrise")] ;;
  moment2 <- new_NFTMoment
    "Forest Echo #002"
    "森の響きと電子音の完璧な調和"
    "data:image/svg+xml;base64,PHN2ZyB3aWR0aD0iMzAwIiBoZWlnaHQ9IjMwMCIgdmlld0JveD0iMCAwIDMwMCAzMDAiIGZpbGw9Im5vbmUiIHhtbG5zPSJodHRwOi8vd3d3LnczLm9yZy8yMDAwL3N2ZyI+CjxyZWN0IHdpZHRoPSIzMDAiIGhlaWdodD0iMzAwIiBmaWxsPSIjMTExIi8+CjxwYXRoIGQ9Ik0xMDAgMTAwIEwyMDAgMTAwIEwxNTAgMjAwIFoiIGZpbGw9IndoaXRlIi8+Cjx0ZXh0IHg9IjE1MCIgeT0iMjUwIiBmaWxsPSJ3aGl0ZSIgdGV4dC1hbmNob3I9Im1pZGRsZSIgZm9udC1mYW1pbHk9IkFyaWFsIiBmb250LXNpemU9IjE2Ij5Gb3Jlc3QgRWNobyAjMDAyPC90ZXh0Pgo8L3N2Zz4K"
    "2024-07-26T22:15:00Z"
    "rare"
    [("location", PStr "天川村"); ("genre", PStr "Electronic"); ("time", PStr "Night")] ;;
  moment3 <- new_NFTMoment
    "Unity Flow #003"
    "家族と音楽が一つになった特別な瞬間"
    "data:image/svg+xml;base64,PHN2ZyB3aWR0aD0iMzAwIiBoZWlnaHQ9IjMwMCIgdmlld0JveD0iMCAwIDMwMCAzMDAiIGZpbGw9Im5vbmUiIHhtbG5zPSJodHRwOi8vd3d3LnczLm9yZy8yMDAwL3N2ZyI+CjxyZWN0IHdpZHRoPSIzMDAiIGhlaWdodD0iMzAwIiBmaWxsPSIjMDAwIi8+CjxjaXJjbGUgY3g9IjEwMCIgY3k9IjEwMCIgcj0iMjAiIGZpbGw9IndoaXRlIi8+CjxjaXJjbGUgY3g9IjIwMCIgY3k9IjEwMCIgcj0iMjAiIGZpbGw9IndoaXRlIi8+CjxjaXJjbGUgY3g9IjEwMCIgY3k9IjIwMCIgcj0iMjAiIGZpbGw9IndoaXRlIi8+CjxjaXJjbGUgY3g9IjIwMCIgY3k9IjIwMCIgcj0iMjAiIGZpbGw9IndoaXRlIi8+Cjx0ZXh0IHg9IjE1MCIgeT0iMjcwIiBmaWxsPSJ3aGl0ZSIgdGV4dC1hbmNob3I9Im1pZGRsZSIgZm9udC1mYW1pbHk9IkFyaWFsIiBmb250LXNpemU9IjE2Ij5Vbml0eSBGbG93ICMwMDM8L3RleHQ+Cjwvc3ZnPgo="
    "2024-07-27T16:00:00Z"
    "common"
    [("location", PStr "天川村"); ("genre", PStr "Ambient"); ("time", PStr "Afternoon")] ;;
  let mock_nfts := [moment1; moment2; moment3] in
  ret mock_nfts.

(** The operations of the HTTP interface, the response each one gives, and
    the dispatch from one to the other. *)
Inductive operation : Type :=
| ListFestivals
| GetFestival (festival_id : string)
| GetDJProfile
| ListNFTMoments
| CreateReservation (reservation_data : TicketReservationCreate.t).

Inductive response : Type :=
| FestivalList (body : list Festival.t)
| FestivalBody (body : Festival.t)
| DJProfileBody (body : DJProfile.t)
| NFTMomentList (body : list NFTMoment.t)
| ReservationBody (body : TicketReservation.t).

Definition serve (op : operation) : M response :=
  match op with
  | ListFestivals => body <- get_festivals ;; ret (FestivalList body)
  | GetFestival festival_id => body <- get_festival festival_id ;; ret (FestivalBody body)
  | GetDJProfile => body <- get_dj_profile ;; ret (DJProfileBody body)
  | ListNFTMoments => body <- get_nft_moments ;; ret (NFTMomentList body)
  | CreateReservation reservation_data =>
      body <- create_ticket_reservation reservation_data ;; ret (ReservationBody body)
  end.

(** The seeding step run [n] times in a row. *)
Fixpoint startups (n : nat) : M unit :=
  match n with
  | O => ret tt
  | S n' => startup_event ;; startups n'
  end.

(** ** Vocabulary of the properties *)

(** The price table as the interface description lists it. *)
Definition listed_price (ticket_type : string) : Z :=
  if String.eqb ticket_type "early_bird" then 15000
  else if String.eqb ticket_type "regular" then 18000
  else if String.eqb ticket_type "vip" then 35000
  else if String.eqb ticket_type "family" then 40000
  else 18000.

(** Some festival document carries this id. *)
Definition festival_exists (d : database) (festival_id : string) : Prop :=
  exists f, In f (festivals d) /\ Festival.id f = festival_id.

Definition festival_not_found : HTTPException :=
  mk_HTTPException 404 "Festival not found".


(** The documents of a collection whose field has the given value. *)
Definition documents_with {D : Type} (field : D -> string) (value : string)
    (collection : list D) : list D :=
  filter (fun doc => String.eqb (field doc) value) collection.

(** The store holds exactly one festival named "Moment Festival", of year
    2025, and exactly one profile with stage name "DJ Senoh". *)
Definition seeded_once (d : database) : Prop :=
  (exists f, documents_with Festival.name "Moment Festival" (festivals d) = [f]
             /\ Festival.year f = 2025)
  /\ (exists p, documents_with DJProfile.stage_name "DJ Senoh" (dj_profiles d) = [p]).

(** The store holds at least one of each. *)
Definition seed_present (d : database) : Prop :=
  (exists f, In f (festivals d) /\ Festival.name f = "Moment Festival")
  /\ (exists p, In p (dj_profiles d) /\ DJProfile.stage_name p = "DJ Senoh").

(** What a moment record says, apart from the two generated fields [id]
    and [created_at]. *)
Definition moment_content (m : NFTMoment.t)
    : string * string * string * string * string * pydict pyval :=
  (NFTMoment.title m, NFTMoment.description m, NFTMoment.image_base64 m,
   NFTMoment.moment_timestamp m, NFTMoment.rarity m, NFTMoment.attributes m).

(** The reservation record the handler builds for a request in world [w]. *)
Definition reservation_for (reservation_data : TicketReservationCreate.t) (w : world)
    : TicketReservation.t :=
  TicketReservation.mk
    (uuid_source w (uuid_drawn w))
    (TicketReservationCreate.festival_id reservation_data)
    (TicketReservationCreate.name reservation_data)
    (TicketReservationCreate.email reservation_data)
    (TicketReservationCreate.phone reservation_data)
    (TicketReservationCreate.ticket_type reservation_data)
    (TicketReservationCreate.quantity reservation_data)
    (dict_get_default ticket_prices
       (TicketReservationCreate.ticket_type reservation_data) 18000
     * TicketReservationCreate.quantity reservation_data)
    "pending"
    (clock w (clock_read w)).

(** ** Sample worlds *)

Definition sample_uuid (k : nat) : string :=
  String.append "uuid-" (NilEmpty.string_of_uint (Nat.to_uint k)).

Definition sample_clock (k : nat) : datetime := 1753488000000000 + Z.of_nat k.

Definition world_of (d : database) : world := mk_world d sample_uuid 0 sample_clock 0.

Definition empty_world : world := world_of (mk_database [] [] []).

(** The world after the first startup on an empty store. *)
Definition seeded_world : world := snd (startup_event empty_world).

(** The request of the test suite: two early-bird tickets. *)
Definition sample_request (festival_id : string) : TicketReservationCreate.t :=
  TicketReservationCreate.mk festival_id "田中太郎" "tanaka.taro@example.com"
    "090-1234-5678" "early_bird" 2.

Definition plain_festival (id name : string) (year : Z) : Festival.t :=
  Festival.mk id name year "" "" "" [] [] [] [] 0.

(** A store with 1001 festival documents. *)
Definition crowded_world : world :=
  world_of (mk_database
              (repeat (plain_festival "early" "Side Stage" 2024) 1000
               ++ [plain_festival "late" "After Party" 2024])
              [] []).

(** A store in which the seed festival was inserted a second time, as two
    startups racing each other leave it. *)
Definition doubly_seeded_world : world :=
  snd ((second_festival <- sample_festival ;; insert_one_festival second_festival)
         seeded_world).

(** The world a successful reservation leaves behind. *)
Definition after_reservation (reservation_data : TicketReservationCreate.t) (w : world)
    : world :=
  mk_world
    (mk_database (festivals (db w)) (dj_profiles (db w))
                 (ticket_reservations (db w) ++ [reservation_for reservation_data w]))
    (uuid_source w) (S (uuid_drawn w)) (clock w) (S (clock_read w)).

(** ** Sessions and store invariants *)

(** The world after a session: the operations are served one after the
    other, each on the world the one before left, whether it returned or
    raised. *)
Fixpoint serve_all (ops : list operation) (w : world) : world :=
  match ops with
  | [] => w
  | op :: rest => serve_all rest (snd (serve op w))
  end.

(** Some festival document of the list carries this id, as a boolean. *)
Definition has_festival (l : list Festival.t) (festival_id : string) : bool :=
  existsb (fun doc => String.eqb (Festival.id doc) festival_id) l.

(** The operation is a reservation for a festival of the list. *)
Definition accepted_reservation (l : list Festival.t) (op : operation) : bool :=
  match op with
  | CreateReservation reservation_data =>
      has_festival l (TicketReservationCreate.festival_id reservation_data)
  | _ => false
  end.

(** Every stored reservation names a stored festival. *)
Definition references_intact (d : database) : Prop :=
  Forall (fun r => festival_exists d (TicketReservation.festival_id r))
         (ticket_reservations d).

(** Every stored reservation carries the price of its type times its
    quantity, and the status "pending". *)
Definition reservations_priced (d : database) : Prop :=
  Forall (fun r => TicketReservation.total_price r
                   = listed_price (TicketReservation.ticket_type r)
                     * TicketReservation.quantity r
                   /\ TicketReservation.status r = "pending")
         (ticket_reservations d).

(** The stored reservations carry ids that [uuid4] has already handed out,
    no two of them the same. *)
Definition reservation_ids_drawn (w : world) : Prop :=
  NoDup (map TicketReservation.id (ticket_reservations (db w)))
  /\ Forall (fun r => exists k, (k < uuid_drawn w)%nat
                                /\ TicketReservation.id r = uuid_source w k)
            (ticket_reservations (db w)).

Definition dj_profile_not_found : HTTPException :=
  mk_HTTPException 404 "DJ Profile not found".

(** The world with its two counters moved on by [n]. *)
Definition drawn (n : nat) (w : world) (d : database) : world :=
  mk_world d (uuid_source w) (n + uuid_drawn w) (clock w) (n + clock_read w).

(** The seeded store after the reservation of the test suite. *)
Definition booked_world : world :=
  snd (create_ticket_reservation (sample_request "uuid-0") seeded_world).

(** * The test harness, [backend_test.py]

    The harness talks to a running service over HTTP and decides, from the
    status code and the JSON body of each response, whether a check passed.
    The network and the service behind it are a parameter here: [send]
    answers a request in a transport state of type [T], either with a
    response or with a [requests.exceptions.RequestException].  A response
    body is the value [response.json()] returns; JSON numbers are integers.

    [log_test] keeps, of each result, the name of the check and whether it
    passed: the message, the response data and the timestamp are only ever
    printed.  An exception the harness does not catch ([AttributeError],
    [TypeError], [KeyError], [ZeroDivisionError]) ends the run; a check that
    ends this way has no result, [None]. *)

Module BackendTest.

Inductive json : Type :=
| JNull
| JBool (b : bool)
| JInt (n : Z)
| JStr (s : string)
| JList (l : list json)
| JObject (members : list (string * json)).

(** The value of a key in a parsed JSON object: of several members with the
    same key the last one stays. *)
Fixpoint member (members : list (string * json)) (key : string) : option json :=
  match members with
  | [] => None
  | (k, v) :: rest =>
      match member rest key with
      | Some v' => Some v'
      | None => if String.eqb k key then Some v else None
      end
  end.

(** [len(s)] of a [str]: its code points, the bytes of the UTF-8 text that
    are not continuation bytes. *)
Fixpoint py_str_len (s : string) : nat :=
  match s with
  | EmptyString => O
  | String c rest =>
      let byte := Ascii.nat_of_ascii c in
      ((if (Nat.leb 128 byte && Nat.ltb byte 192)%bool then 0 else 1)
       + py_str_len rest)%nat
  end.

(** [bool(v)] *)
Definition py_truthy (v : json) : bool :=
  match v with
  | JNull => false
  | JBool b => b
  | JInt n => negb (n =? 0)
  | JStr s => negb (String.eqb s "")
  | JList l => match l with [] => false | _ => true end
  | JObject members => match members with [] => false | _ => true end
  end.

(** [v == s] for a string [s] *)
Definition py_eq_str (v : json) (s : string) : bool :=
  match v with
  | JStr s' => String.eqb s' s
  | _ => false
  end.

(** [v == n] for an integer [n]; [True] and [False] are the integers 1 and 0. *)
Definition py_eq_int (v : json) (n : Z) : bool :=
  match v with
  | JInt m => m =? n
  | JBool b => (if b then 1 else 0) =? n
  | _ => false
  end.

(** [key in v] for a string [key]: a key of a dict, an element of a list, a
    substring of a string; a [TypeError] on anything else. *)
Definition py_contains (v : json) (key : string) : option bool :=
  match v with
  | JObject members =>
      Some (match member members key with Some _ => true | None => false end)
  | JList l => Some (existsb (fun x => py_eq_str x key) l)
  | JStr s => Some (match String.index 0 key s with Some _ => true | None => false end)
  | _ => None
  end.

(** [v.get(key, default)]: only a dict has [get]. *)
Definition py_get (v : json) (key : string) (default : json) : option json :=
  match v with
  | JObject members =>
      Some (match member members key with Some x => x | None => default end)
  | _ => None
  end.

(** [v[key]] for a string [key]: a [KeyError] or [TypeError] unless [v] is a
    dict with that key. *)
Definition py_getitem (v : json) (key : string) : option json :=
  match v with
  | JObject members => member members key
  | _ => None
  end.

(** [len(v)] *)
Definition py_len (v : json) : option nat :=
  match v with
  | JList l => Some (length l)
  | JObject members => Some (length (nodup string_dec (map fst members)))
  | JStr s => Some (py_str_len s)
  | _ => None
  end.

(** [v.startswith(prefix)]: only a string has [startswith]. *)
Definition py_startswith (v : json) (prefix : string) : option bool :=
  match v with
  | JStr s => Some (String.prefix prefix s)
  | _ => None
  end.

(** [list(v.keys())] is evaluated: only a dict has [keys]. *)
Definition py_has_keys (v : json) : option unit :=
  match v with
  | JObject _ => Some tt
  | _ => None
  end.

(** [[field for field in fields if field not in v]] *)
Fixpoint missing_fields (fields : list string) (v : json) : option (list string) :=
  match fields with
  | [] => Some []
  | field :: rest =>
      match py_contains v field with
      | None => None
      | Some present =>
          match missing_fields rest v with
          | None => None
          | Some missing => Some (if present then missing else field :: missing)
          end
      end
  end.

(** [all(key in v for key in keys)], which stops at the first key that is
    not in [v]. *)
Fixpoint all_in (keys : list string) (v : json) : option bool :=
  match keys with
  | [] => Some true
  | key :: rest =>
      match py_contains v key with
      | None => None
      | Some false => Some false
      | Some true => all_in rest v
      end
  end.

(** [[x[key] for x in l]] *)
Fixpoint items_of (l : list json) (key : string) : option (list json) :=
  match l with
  | [] => Some []
  | x :: rest =>
      match py_getitem x key with
      | None => None
      | Some v =>
          match items_of rest key with
          | None => None
          | Some vs => Some (v :: vs)
          end
      end
  end.

(** [all(x[key].startswith(prefix) for x in l)], which stops at the first
    element that does not start with the prefix. *)
Fixpoint all_start_with (l : list json) (key prefix : string) : option bool :=
  match l with
  | [] => Some true
  | x :: rest =>
      match py_getitem x key with
      | None => None
      | Some v =>
          match py_startswith v prefix with
          | None => None
          | Some false => Some false
          | Some true => all_start_with rest key prefix
          end
      end
  end.

(** The requests the harness sends. *)
Inductive request : Type :=
| GetFestivals                               (* GET  /api/festivals *)
| GetFestivalDetail (festival_id : json)     (* GET  /api/festivals/{festival_id} *)
| GetDJProfileRequest                        (* GET  /api/dj-profile *)
| GetNFTMoments                              (* GET  /api/nft-moments *)
| PostTicketReservation (body : json).       (* POST /api/ticket-reservation *)

Inductive reply : Type :=
| RequestException
| Response (status_code : Z) (body : json).

Record BackendTester : Type := mk_BackendTester {
  test_results : list (string * bool);
  festival_id : json
}.

(** [BackendTester()] *)
Definition new_BackendTester : BackendTester := mk_BackendTester [] JNull.

Definition log_test (self : BackendTester) (test_name : string) (success : bool)
    : BackendTester :=
  mk_BackendTester (test_results self ++ [(test_name, success)]) (festival_id self).

Definition set_festival_id (self : BackendTester) (id : json) : BackendTester :=
  mk_BackendTester (test_results self) id.

Section Harness.
Context {T : Type}.
Variable send : request -> T -> reply * T.

Definition test_festivals_list (self : BackendTester) (net : T)
    : option (BackendTester * T) :=
  match send GetFestivals net with
  | (Response status_code festivals, net) =>
      if status_code =? 200 then
        match festivals with
        | JList (first :: _) =>
            match py_get first "id" JNull with
            | None => None
            | Some id =>
                let self := set_festival_id self id in
                let festival := first in
                let required_fields :=
                  ["id"; "name"; "year"; "location"; "date"; "venue_info";
                   "sound_system"; "family_services"; "ticket_info"] in
                match missing_fields required_fields festival with
                | None => None
                | Some (_ :: _) => Some (log_test self "Festival List API" false, net)
                | Some [] =>
                    match py_getitem festival "name", py_getitem festival "year" with
                    | Some name, Some year =>
                        if (py_eq_str name "Moment Festival" && py_eq_int year 2025)%bool
                        then Some (log_test self "Festival List API" true, net)
                        else Some (log_test self "Festival List API" false, net)
                    | _, _ => None
                    end
                end
            end
        | _ => Some (log_test self "Festival List API" false, net)
        end
      else Some (log_test self "Festival List API" false, net)
  | (RequestException, net) => Some (log_test self "Festival List API" false, net)
  end.

Definition test_festival_detail (self : BackendTester) (net : T)
    : option (BackendTester * T) :=
  if negb (py_truthy (festival_id self)) then
    Some (log_test self "Festival Detail API" false, net)
  else
    match send (GetFestivalDetail (festival_id self)) net with
    | (Response status_code festival, net) =>
        if status_code =? 200 then
          match py_get festival "name" JNull with
          | None => None
          | Some name =>
              if py_eq_str name "Moment Festival" then
                match py_get festival "venue_info" (JObject []) with
                | None => None
                | Some venue_info =>
                    match py_get venue_info "name" JNull with
                    | None => None
                    | Some venue_name =>
                        if py_eq_str venue_name "フォレスト・イン洞川" then
                          match py_get festival "sound_system" (JObject []) with
                          | None => None
                          | Some sound_system =>
                              match py_get sound_system "primary" JNull with
                              | None => None
                              | Some primary =>
                                  if py_eq_str primary "Alcons Audio" then
                                    match py_get festival "family_services" (JList []) with
                                    | None => None
                                    | Some family_services =>
                                        match py_len family_services with
                                        | None => None
                                        | Some services =>
                                            if Nat.leb 4 services then
                                              match py_get festival "ticket_info" (JObject []) with
                                              | None => None
                                              | Some ticket_info =>
                                                  match all_in ["early_bird"; "regular"; "vip"; "family"]
                                                          ticket_info with
                                                  | None => None
                                                  | Some true =>
                                                      Some (log_test self "Festival Detail API" true, net)
                                                  | Some false =>
                                                      match py_has_keys ticket_info with
                                                      | None => None
                                                      | Some _ =>
                                                          Some (log_test self "Festival Detail API" false, net)
                                                      end
                                                  end
                                              end
                                            else Some (log_test self "Festival Detail API" false, net)
                                        end
                                    end
                                  else Some (log_test self "Festival Detail API" false, net)
                              end
                          end
                        else Some (log_test self "Festival Detail API" false, net)
                    end
                end
              else Some (log_test self "Festival Detail API" false, net)
          end
        else Some (log_test self "Festival Detail API" false, net)
    | (RequestException, net) => Some (log_test self "Festival Detail API" false, net)
    end.

Definition test_dj_profile (self : BackendTester) (net : T)
    : option (BackendTester * T) :=
  match send GetDJProfileRequest net with
  | (Response status_code profile, net) =>
      if status_code =? 200 then
        let required_fields :=
          ["name"; "stage_name"; "location"; "music_styles"; "career_start"; "bio";
           "philosophy"; "timeline"; "social_links"] in
        match missing_fields required_fields profile with
        | None => None
        | Some (_ :: _) => Some (log_test self "DJ Profile API" false, net)
        | Some [] =>
            match py_get profile "stage_name" JNull with
            | None => None
            | Some stage_name =>
                (* [and] evaluates its second operand only when the first holds;
                   both are [get] on the same value, so the second fails only
                   where the first already has *)
                if (py_eq_str stage_name "DJ Senoh"
                    && match py_get profile "name" JNull with
                       | Some name => py_eq_str name "Mike Senoh"
                       | None => false
                       end)%bool
                then
                  match py_get profile "philosophy" (JObject []) with
                  | None => None
                  | Some philosophy =>
                      match all_in ["meditation"; "awareness"; "permanence"] philosophy with
                      | None => None
                      | Some true =>
                          match py_get profile "timeline" (JList []) with
                          | None => None
                          | Some timeline =>
                              match py_len timeline with
                              | None => None
                              | Some entries =>
                                  if Nat.leb 6 entries then
                                    match py_get profile "social_links" (JObject []) with
                                    | None => None
                                    | Some social_links =>
                                        match all_in ["soundcloud"; "facebook"; "instagram"; "twitter"]
                                                social_links with
                                        | None => None
                                        | Some true => Some (log_test self "DJ Profile API" true, net)
                                        | Some false =>
                                            match py_has_keys social_links with
                                            | None => None
                                            | Some _ => Some (log_test self "DJ Profile API" false, net)
                                            end
                                        end
                                    end
                                  else Some (log_test self "DJ Profile API" false, net)
                              end
                          end
                      | Some false =>
                          match py_has_keys philosophy with
                          | None => None
                          | Some _ => Some (log_test self "DJ Profile API" false, net)
                          end
                      end
                  end
                else Some (log_test self "DJ Profile API" false, net)
            end
        end
      else Some (log_test self "DJ Profile API" false, net)
  | (RequestException, net) => Some (log_test self "DJ Profile API" false, net)
  end.

Definition test_nft_moments (self : BackendTester) (net : T)
    : option (BackendTester * T) :=
  match send GetNFTMoments net with
  | (Response status_code nfts, net) =>
      if status_code =? 200 then
        match nfts with
        | JList (nft :: rest) =>
            if Nat.leb 3 (length (nft :: rest)) then
              let nfts := nft :: rest in
              let required_fields :=
                ["id"; "title"; "description"; "image_base64"; "moment_timestamp";
                 "rarity"; "attributes"] in
              match missing_fields required_fields nft with
              | None => None
              | Some (_ :: _) => Some (log_test self "NFT Moments API" false, net)
              | Some [] =>
                  match items_of nfts "title" with
                  | None => None
                  | Some nft_titles =>
                      if forallb (fun title => existsb (fun t => py_eq_str t title) nft_titles)
                           ["Sunrise Moment #001"; "Forest Echo #002"; "Unity Flow #003"]
                      then
                        match all_start_with nfts "image_base64"
                                "data:image/svg+xml;base64," with
                        | None => None
                        | Some true =>
                            match items_of nfts "rarity" with
                            | None => None
                            | Some rarities =>
                                if forallb
                                     (fun rarity =>
                                        existsb (fun expected => py_eq_str rarity expected)
                                          ["legendary"; "rare"; "common"])
                                     rarities
                                then Some (log_test self "NFT Moments API" true, net)
                                else Some (log_test self "NFT Moments API" false, net)
                            end
                        | Some false => Some (log_test self "NFT Moments API" false, net)
                        end
                      else Some (log_test self "NFT Moments API" false, net)
                  end
              end
            else Some (log_test self "NFT Moments API" false, net)
        | _ => Some (log_test self "NFT Moments API" false, net)
        end
      else Some (log_test self "NFT Moments API" false, net)
  | (RequestException, net) => Some (log_test self "NFT Moments API" false, net)
  end.

(** The body [test_ticket_reservation] posts. *)
Definition reservation_data (festival_id : json) : json :=
  JObject [ ("festival_id", festival_id);
            ("name", JStr "田中太郎");
            ("email", JStr "tanaka.taro@example.com");
            ("phone", JStr "090-1234-5678");
            ("ticket_type", JStr "early_bird");
            ("quantity", JInt 2) ].

Definition test_ticket_reservation (self : BackendTester) (net : T)
    : option (BackendTester * T) :=
  if negb (py_truthy (festival_id self)) then
    Some (log_test self "Ticket Reservation API" false, net)
  else
    match send (PostTicketReservation (reservation_data (festival_id self))) net with
    | (Response status_code reservation, net) =>
        if status_code =? 200 then
          let required_fields :=
            ["id"; "festival_id"; "name"; "email"; "phone"; "ticket_type"; "quantity";
             "total_price"; "status"] in
          match missing_fields required_fields reservation with
          | None => None
          | Some (_ :: _) => Some (log_test self "Ticket Reservation API" false, net)
          | Some [] =>
              let expected_price := 15000 * 2 in
              match py_getitem reservation "total_price",
                    py_getitem reservation "name",
                    py_getitem reservation "email",
                    py_getitem reservation "ticket_type",
                    py_getitem reservation "quantity",
                    py_getitem reservation "status" with
              | Some total_price, Some name, Some email, Some ticket_type,
                Some quantity, Some status =>
                  if py_eq_int total_price expected_price then
                    if (py_eq_str name "田中太郎"
                        && py_eq_str email "tanaka.taro@example.com"
                        && py_eq_str ticket_type "early_bird"
                        && py_eq_int quantity 2
                        && py_eq_str status "pending")%bool
                    then Some (log_test self "Ticket Reservation API" true, net)
                    else Some (log_test self "Ticket Reservation API" false, net)
                  else Some (log_test self "Ticket Reservation API" false, net)
              | _, _, _, _, _, _ => None
              end
          end
        else Some (log_test self "Ticket Reservation API" false, net)
    | (RequestException, net) => Some (log_test self "Ticket Reservation API" false, net)
    end.

(** The body [test_ticket_reservation_validation] posts. *)
Definition invalid_reservation : json :=
  JObject [ ("festival_id", JStr "invalid-festival-id");
            ("name", JStr "テストユーザー");
            ("email", JStr "test@example.com");
            ("phone", JStr "090-0000-0000");
            ("ticket_type", JStr "regular");
            ("quantity", JInt 1) ].

Definition test_ticket_reservation_validation (self : BackendTester) (net : T)
    : option (BackendTester * T) :=
  match send (PostTicketReservation invalid_reservation) net with
  | (Response status_code _, net) =>
      if status_code =? 404
      then Some (log_test self "Ticket Reservation Validation" true, net)
      else Some (log_test self "Ticket Reservation Validation" false, net)
  | (RequestException, net) =>
      Some (log_test self "Ticket Reservation Validation" false, net)
  end.

(** The six checks in the order [run_all_tests] runs them. *)
Definition run_checks (self : BackendTester) (net : T) : option (BackendTester * T) :=
  match test_festivals_list self net with
  | None => None
  | Some (self, net) =>
  match test_festival_detail self net with
  | None => None
  | Some (self, net) =>
  match test_dj_profile self net with
  | None => None
  | Some (self, net) =>
  match test_nft_moments self net with
  | None => None
  | Some (self, net) =>
  match test_ticket_reservation self net with
  | None => None
  | Some (self, net) => test_ticket_reservation_validation self net
  end end end end end.

(** [run_all_tests]: the checks, then the summary; the percentage it prints
    divides by the number of results. *)
Definition run_all_tests (self : BackendTester) (net : T)
    : option (bool * BackendTester * T) :=
  match run_checks self net with
  | None => None
  | Some (self, net) =>
      let passed := length (filter (fun result => snd result) (test_results self)) in
      let total := length (test_results self) in
      if Nat.eqb total 0 then None
      else Some (Nat.eqb passed total, self, net)
  end.

(** The script: the exit status is 0 when [run_all_tests] returns [True], 1
    when it returns [False] or ends with an exception. *)
Definition main (net : T) : Z :=
  match run_all_tests new_BackendTester net with
  | Some (true, _, _) => 0
  | _ => 1
  end.

End Harness.

End BackendTest.

(** * The service behind the harness

    What the harness sees of a handler: a handler that returns answers with
    status 200 and its result as JSON, one field per field of the response
    model; a handler that raises [HTTPException] answers with the status code
    of the exception and its detail.  [isoformat] is the text a [datetime]
    is sent as. *)

Import BackendTest.

Fixpoint json_of_pyval (v : pyval) : json :=
  match v with
  | PStr s => JStr s
  | PInt n => JInt n
  | PList l => JList (map json_of_pyval l)
  | PDict d => JObject (map (fun item => let '(k, x) := item in (k, json_of_pyval x)) d)
  end.

Definition json_of_dict (d : pydict pyval) : json := json_of_pyval (PDict d).

Section Wire.
Variable isoformat : datetime -> string.

Definition festival_json (f : Festival.t) : json :=
  JObject [ ("id", JStr (Festival.id f));
            ("name", JStr (Festival.name f));
            ("year", JInt (Festival.year f));
            ("location", JStr (Festival.location f));
            ("date", JStr (Festival.date f));
            ("description", JStr (Festival.description f));
            ("venue_info", json_of_dict (Festival.venue_info f));
            ("sound_system", json_of_dict (Festival.sound_system f));
            ("family_services", JList (map json_of_dict (Festival.family_services f)));
            ("ticket_info", json_of_dict (Festival.ticket_info f));
            ("created_at", JStr (isoformat (Festival.created_at f))) ].

Definition dj_profile_json (p : DJProfile.t) : json :=
  JObject [ ("id", JStr (DJProfile.id p));
            ("name", JStr (DJProfile.name p));
            ("stage_name", JStr (DJProfile.stage_name p));
            ("location", JStr (DJProfile.location p));
            ("music_styles", JList (map JStr (DJProfile.music_styles p)));
            ("career_start", JInt (DJProfile.career_start p));
            ("bio", JStr (DJProfile.bio p));
            ("philosophy", json_of_dict (DJProfile.philosophy p));
            ("timeline", JList (map json_of_dict (DJProfile.timeline p)));
            ("social_links", json_of_dict (DJProfile.social_links p));
            ("created_at", JStr (isoformat (DJProfile.created_at p))) ].

Definition ticket_reservation_json (r : TicketReservation.t) : json :=
  JObject [ ("id", JStr (TicketReservation.id r));
            ("festival_id", JStr (TicketReservation.festival_id r));
            ("name", JStr (TicketReservation.name r));
            ("email", JStr (TicketReservation.email r));
            ("phone", JStr (TicketReservation.phone r));
            ("ticket_type", JStr (TicketReservation.ticket_type r));
            ("quantity", JInt (TicketReservation.quantity r));
            ("total_price", JInt (TicketReservation.total_price r));
            ("status", JStr (TicketReservation.status r));
            ("created_at", JStr (isoformat (TicketReservation.created_at r))) ].

Definition nft_moment_json (m : NFTMoment.t) : json :=
  JObject [ ("id", JStr (NFTMoment.id m));
            ("title", JStr (NFTMoment.title m));
            ("description", JStr (NFTMoment.description m));
            ("image_base64", JStr (NFTMoment.image_base64 m));
            ("moment_timestamp", JStr (NFTMoment.moment_timestamp m));
            ("rarity", JStr (NFTMoment.rarity m));
            ("attributes", json_of_dict (NFTMoment.attributes m));
            ("created_at", JStr (isoformat (NFTMoment.created_at m))) ].

(** The JSON body of a reservation request. *)
Definition reservation_request_json (reservation_data : TicketReservationCreate.t) : json :=
  JObject [ ("festival_id", JStr (TicketReservationCreate.festival_id reservation_data));
            ("name", JStr (TicketReservationCreate.name reservation_data));
            ("email", JStr (TicketReservationCreate.email reservation_data));
            ("phone", JStr (TicketReservationCreate.phone reservation_data));
            ("ticket_type", JStr (TicketReservationCreate.ticket_type reservation_data));
            ("quantity", JInt (TicketReservationCreate.quantity reservation_data)) ].

Definition http_reply {A : Type} (encode : A -> json) (result : outcome A * world)
    : reply * world :=
  match result with
  | (Return a, w) => (Response 200 (encode a), w)
  | (Raise e, w) => (Response (status_code e) (JObject [("detail", JStr (detail e))]), w)
  end.


(** A reservation request read back from its JSON body. *)
Definition parse_reservation_request (body : json) : option TicketReservationCreate.t :=
  match py_getitem body "festival_id", py_getitem body "name", py_getitem body "email",
        py_getitem body "phone", py_getitem body "ticket_type",
        py_getitem body "quantity" with
  | Some (JStr festival_id), Some (JStr name), Some (JStr email), Some (JStr phone),
    Some (JStr ticket_type), Some (JInt quantity) =>
      Some (TicketReservationCreate.mk festival_id name email phone ticket_type quantity)
  | _, _, _, _, _, _ => None
  end.

(** A sample transport: it relays the well-formed requests and answers any
    other with status 422 and an empty body. *)
Definition sample_transport (r : request) (w : world) : reply * world :=
  match r with
  | GetFestivals => http_reply (fun l => JList (map festival_json l)) (get_festivals w)
  | GetFestivalDetail (JStr id) => http_reply festival_json (get_festival id w)
  | GetFestivalDetail _ => (Response 422 (JObject []), w)
  | GetDJProfileRequest => http_reply dj_profile_json (get_dj_profile w)
  | GetNFTMoments => http_reply (fun l => JList (map nft_moment_json l)) (get_nft_moments w)
  | PostTicketReservation body =>
      match parse_reservation_request body with
      | Some reservation_data =>
          http_reply ticket_reservation_json
            (create_ticket_reservation reservation_data w)
      | None => (Response 422 (JObject []), w)
      end
  end.

End Wire.

(** A transport on which every request fails. *)
Definition dead_transport (r : request) (net : unit) : reply * unit :=
  (RequestException, net).

Definition sample_isoformat (t : datetime) : string := "2025-07-26T00:00:00".


(** * The driver's limit on integers

    The driver stores an integer of a document in at most 8 bytes and raises
    [OverflowError] on one that does not fit.  No handler catches it: the
    request ends in a server error and nothing is stored. *)

(** The integers that fit 8 bytes, signed. *)
Definition int64 (n : Z) : bool := ((- 2 ^ 63 <=? n) && (n <=? 2 ^ 63 - 1))%bool.

(** The integers of a reservation document are its quantity and its total
    price. *)
Definition encodable (doc : TicketReservation.t) : bool :=
  (int64 (TicketReservation.quantity doc)
   && int64 (TicketReservation.total_price doc))%bool.

(** What becomes of a request: the handler returned or raised an
    [HTTPException], or an exception nobody caught ended it. *)
Inductive served (A : Type) : Type :=
| Answered (result : outcome A)
| ServerError (exception : string).

Arguments Answered {A} result.
Arguments ServerError {A} exception.

(** [await db.ticket_reservations.insert_one(doc)] with the driver's limit. *)
Definition insert_one_ticket_reservation_encoded (doc : TicketReservation.t)
    (w : world) : served unit * world :=
  if encodable doc
  then (Answered (fst (insert_one_ticket_reservation doc w)),
        snd (insert_one_ticket_reservation doc w))
  else (ServerError "OverflowError", w).

(** [POST /ticket-reservation] with the driver's limit. *)
Definition create_ticket_reservation_encoded
    (reservation_data : TicketReservationCreate.t) (w : world)
    : served TicketReservation.t * world :=
  match find_one festivals Festival.id
          (TicketReservationCreate.festival_id reservation_data) w with
  | (Raise e, w) => (Answered (Raise e), w)
  | (Return None, w) =>
      (Answered (Raise (mk_HTTPException 404 "Festival not found")), w)
  | (Return (Some _), w) =>
      let total_price :=
        dict_get_default ticket_prices
          (TicketReservationCreate.ticket_type reservation_data) 18000
        * TicketReservationCreate.quantity reservation_data in
      match new_TicketReservation reservation_data total_price w with
      | (Raise e, w) => (Answered (Raise e), w)
      | (Return reservation, w) =>
          match insert_one_ticket_reservation_encoded reservation w with
          | (ServerError exception, w) => (ServerError exception, w)
          | (Answered _, w) => (Answered (Return reservation), w)
          end
      end
  end.

(** * Properties *)

(** ** Lookups by field *)

Section Lookup.
Context {D : Type}.
Variable field : D -> string.
Variable value : string.

Lemma lookup_some (l : list D) (d : D) :
  find (fun doc => String.eqb (field doc) value) l = Some d ->
  In d l /\ field d = value.
Proof.
  intros H. apply find_some in H. destruct H as [Hin Heq].
  split; [exact Hin | now apply String.eqb_eq].
Qed.

Lemma lookup_none (l : list D) :
  find (fun doc => String.eqb (field doc) value) l = None <->
  (forall d, In d l -> field d <> value).
Proof.
  split.
  - intros H d Hin Heq.
    pose proof (find_none _ _ H d Hin) as Hf. simpl in Hf.
    apply String.eqb_neq in Hf. contradiction.
  - induction l as [|a l IH]; intros H; simpl; [reflexivity|].
    destruct (String.eqb (field a) value) eqn:E.
    + apply String.eqb_eq in E. exfalso. apply (H a); [now left | exact E].
    + apply IH. intros d Hin. apply H. now right.
Qed.

Lemma lookup_present (l : list D) :
  (exists d, In d l /\ field d = value) ->
  exists d, find (fun doc => String.eqb (field doc) value) l = Some d.
Proof.
  intros [d [Hin Heq]].
  destruct (find (fun doc => String.eqb (field doc) value) l) as [d'|] eqn:E.
  - now exists d'.
  - exfalso. apply (proj1 (lookup_none l) E d Hin Heq).
Qed.
End Lookup.

(** ** The price table *)

Lemma ticket_prices_listed (ticket_type : string) :
  dict_get_default ticket_prices ticket_type 18000 = listed_price ticket_type.
Proof.
  cbv [dict_get_default ticket_prices listed_price dict_get].
  rewrite (String.eqb_sym "early_bird"), (String.eqb_sym "regular"),
    (String.eqb_sym "vip"), (String.eqb_sym "family").
  destruct (String.eqb ticket_type "early_bird"); [reflexivity|].
  destruct (String.eqb ticket_type "regular"); [reflexivity|].
  destruct (String.eqb ticket_type "vip"); [reflexivity|].
  destruct (String.eqb ticket_type "family"); reflexivity.
Qed.

Lemma listed_price_positive (ticket_type : string) : 0 < listed_price ticket_type.
Proof.
  unfold listed_price.
  repeat match goal with |- context [if ?b then _ else _] => destruct b end; lia.
Qed.

(** ** Reservation creation, by the outcome of the festival lookup *)

Lemma create_ticket_reservation_found
    (reservation_data : TicketReservationCreate.t) (w : world) :
  festival_exists (db w) (TicketReservationCreate.festival_id reservation_data) ->
  create_ticket_reservation reservation_data w
  = (Return (reservation_for reservation_data w), after_reservation reservation_data w).
Proof.
  intros Hex. apply lookup_present in Hex. destruct Hex as [f Hf].
  unfold create_ticket_reservation, bind, find_one. rewrite Hf. reflexivity.
Qed.

Lemma create_ticket_reservation_missing
    (reservation_data : TicketReservationCreate.t) (w : world) :
  (forall f, In f (festivals (db w)) ->
             Festival.id f <> TicketReservationCreate.festival_id reservation_data) ->
  create_ticket_reservation reservation_data w = (Raise festival_not_found, w).
Proof.
  intros Hno. apply lookup_none in Hno.
  unfold create_ticket_reservation, bind, find_one. rewrite Hno. reflexivity.
Qed.

Lemma seeded_world_festival : festival_exists (db seeded_world) "uuid-0".
Proof.
  exists (hd (plain_festival "" "" 0) (festivals (db seeded_world))).
  split; vm_compute; [left|]; reflexivity.
Qed.

(** The two reservation scenarios of [backend_test.py], on the store the
    first startup leaves. *)
Example scenario_ticket_reservation :
  fst (create_ticket_reservation (sample_request "uuid-0") seeded_world)
  = Return (TicketReservation.mk "uuid-2" "uuid-0" "田中太郎" "tanaka.taro@example.com"
              "090-1234-5678" "early_bird" 2 30000 "pending" 1753488000000002).
Proof. vm_compute. reflexivity. Qed.

Example scenario_ticket_reservation_validation :
  fst (create_ticket_reservation (sample_request "invalid-festival-id") seeded_world)
  = Raise (mk_HTTPException 404 "Festival not found").
Proof. vm_compute. reflexivity. Qed.



(** A document is written only when the lookup found the festival. *)
Lemma reservation_written_only_if_found
    (reservation_data : TicketReservationCreate.t) (w : world) :
  ticket_reservations (db (snd (create_ticket_reservation reservation_data w)))
  <> ticket_reservations (db w) ->
  festival_exists (db w) (TicketReservationCreate.festival_id reservation_data).
Proof.
  intros Hchanged.
  destruct (find (fun doc => String.eqb (Festival.id doc)
                     (TicketReservationCreate.festival_id reservation_data))
              (festivals (db w))) as [f|] eqn:E.
  - exists f. now apply lookup_some in E.
  - exfalso. apply Hchanged.
    rewrite create_ticket_reservation_missing; [reflexivity|].
    now apply lookup_none.
Qed.

(** C2. A reservation whose [festival_id] is the id of no festival document
    fails with HTTP 404 "Festival not found" and leaves the store as it was:
    nothing is written to [ticket_reservations].  The insert comes after the
    existence check, so it is never reached. *)
Theorem reservation_unknown_festival
    (reservation_data : TicketReservationCreate.t) (w : world) :
  (forall f, In f (festivals (db w)) ->
             Festival.id f <> TicketReservationCreate.festival_id reservation_data) ->
  create_ticket_reservation reservation_data w
  = (Raise (mk_HTTPException 404 "Festival not found"), w)
  /\ ticket_reservations (db (snd (create_ticket_reservation reservation_data w)))
     = ticket_reservations (db w).
Proof.
  intros Hno.
  rewrite (create_ticket_reservation_missing reservation_data w Hno).
  split; reflexivity.
Qed.

Lemma seeded_world_no_invalid_festival :
  forall f, In f (festivals (db seeded_world)) -> Festival.id f <> "invalid-festival-id".
Proof.
  apply lookup_none. vm_compute. reflexivity.
Qed.

Lemma reservation_unknown_festival_witness :
  (forall f, In f (festivals (db seeded_world)) ->
             Festival.id f <> "invalid-festival-id")
  /\ create_ticket_reservation (sample_request "invalid-festival-id") seeded_world
     = (Raise (mk_HTTPException 404 "Festival not found"), seeded_world)
  /\ ticket_reservations
       (db (snd (create_ticket_reservation (sample_request "invalid-festival-id")
                   seeded_world)))
     = ticket_reservations (db seeded_world).
Proof.
  split.
  - exact seeded_world_no_invalid_festival.
  - apply (reservation_unknown_festival (sample_request "invalid-festival-id")
             seeded_world).
    exact seeded_world_no_invalid_festival.
Defined.

(** The handler with the driver's limit does what the handler does whenever
    the festival is missing or the reservation it builds can be encoded. *)
Lemma create_ticket_reservation_encoded_agrees
    (reservation_data : TicketReservationCreate.t) (w : world) :
  (forall f, In f (festivals (db w)) ->
             Festival.id f <> TicketReservationCreate.festival_id reservation_data)
  \/ encodable (reservation_for reservation_data w) = true ->
  create_ticket_reservation_encoded reservation_data w
  = (Answered (fst (create_ticket_reservation reservation_data w)),
     snd (create_ticket_reservation reservation_data w)).
Proof.
  intros Hcase.
  unfold create_ticket_reservation_encoded, create_ticket_reservation, bind, find_one.
  destruct (find (fun doc => String.eqb (Festival.id doc)
                     (TicketReservationCreate.festival_id reservation_data))
              (festivals (db w))) as [f|] eqn:E.
  - destruct Hcase as [Hno|Hfits].
    + apply lookup_some in E. exfalso. now apply (Hno f).
    + cbn. unfold insert_one_ticket_reservation_encoded.
      change (TicketReservation.mk _ _ _ _ _ _ _ _ _ _)
        with (reservation_for reservation_data w).
      rewrite Hfits. reflexivity.
  - reflexivity.
Qed.

Lemma int64_range (n : Z) : int64 n = true <-> - 2 ^ 63 <= n <= 2 ^ 63 - 1.
Proof.
  unfold int64. rewrite andb_true_iff, !Z.leb_le. tauto.
Qed.

(** C9, as stated, fails for a quantity the driver cannot encode: with
    quantity 2^63 the request passes the handler, the insert raises
    [OverflowError], and the request ends in a server error with nothing
    stored. *)
Lemma reservation_quantity_overflows :
  festival_exists (db seeded_world) "uuid-0"
  /\ fst (create_ticket_reservation_encoded
            (TicketReservationCreate.mk "uuid-0" "田中太郎" "tanaka.taro@example.com"
               "090-1234-5678" "regular" (2 ^ 63)) seeded_world)
     = ServerError "OverflowError"
  /\ ticket_reservations
       (db (snd (create_ticket_reservation_encoded
                   (TicketReservationCreate.mk "uuid-0" "田中太郎"
                      "tanaka.taro@example.com" "090-1234-5678" "regular" (2 ^ 63))
                   seeded_world)))
     = ticket_reservations (db seeded_world).
Proof.
  split; [exact seeded_world_festival|].
  split; vm_compute; reflexivity.
Qed.

(** C9, amended. The handler puts no condition on the sign of the quantity:
    for every integer quantity, zero and negative ones included, such that
    the quantity and the unit price times the quantity fit 8 bytes, a
    reservation for an existing festival succeeds, echoes that quantity, and
    is stored with [total_price] the unit price times it, which is zero for
    quantity zero and negative for a negative quantity. *)
Theorem reservation_any_encodable_quantity
    (festival_id name email phone ticket_type : string) (quantity : Z) (w : world) :
  festival_exists (db w) festival_id ->
  int64 quantity = true ->
  int64 (listed_price ticket_type * quantity) = true ->
  exists reservation w',
    create_ticket_reservation_encoded
      (TicketReservationCreate.mk festival_id name email phone ticket_type quantity) w
    = (Answered (Return reservation), w')
    /\ TicketReservation.quantity reservation = quantity
    /\ TicketReservation.total_price reservation = listed_price ticket_type * quantity
    /\ (quantity = 0 -> TicketReservation.total_price reservation = 0)
    /\ (quantity < 0 -> TicketReservation.total_price reservation < 0)
    /\ In reservation (ticket_reservations (db w')).
Proof.
  intros Hex Hquantity Htotal.
  set (reservation_data :=
         TicketReservationCreate.mk festival_id name email phone ticket_type quantity).
  assert (Hprice : TicketReservation.total_price (reservation_for reservation_data w)
                   = listed_price ticket_type * quantity).
  { simpl. now rewrite ticket_prices_listed. }
  assert (Hfits : encodable (reservation_for reservation_data w) = true).
  { unfold encodable. rewrite Hprice, Htotal. simpl TicketReservation.quantity.
    now rewrite Hquantity. }
  exists (reservation_for reservation_data w), (after_reservation reservation_data w).
  split.
  - rewrite create_ticket_reservation_encoded_agrees by now right.
    now rewrite create_ticket_reservation_found.
  - pose proof (listed_price_positive ticket_type) as Hpos.
    repeat split.
    + exact Hprice.
    + intros ->. rewrite Hprice. lia.
    + intros Hneg. rewrite Hprice. nia.
    + simpl. apply in_or_app. right. now left.
Qed.

Lemma reservation_any_encodable_quantity_witness :
  festival_exists (db seeded_world) "uuid-0"
  /\ int64 (-3) = true
  /\ int64 (listed_price "vip" * -3) = true
  /\ exists reservation w',
       create_ticket_reservation_encoded
         (TicketReservationCreate.mk "uuid-0" "田中太郎" "tanaka.taro@example.com"
            "090-1234-5678" "vip" (-3)) seeded_world
       = (Answered (Return reservation), w')
       /\ TicketReservation.quantity reservation = -3
       /\ TicketReservation.total_price reservation = listed_price "vip" * -3
       /\ (-3 = 0 -> TicketReservation.total_price reservation = 0)
       /\ (-3 < 0 -> TicketReservation.total_price reservation < 0)
       /\ In reservation (ticket_reservations (db w')).
Proof.
  split; [exact seeded_world_festival|].
  split; [reflexivity|].
  split; [reflexivity|].
  apply (reservation_any_encodable_quantity "uuid-0" "田中太郎"
           "tanaka.taro@example.com" "090-1234-5678" "vip" (-3) seeded_world).
  - exact seeded_world_festival.
  - reflexivity.
  - reflexivity.
Defined.

(** ** The read handlers *)

Lemma get_festivals_run (w : world) :
  get_festivals w = (Return (firstn 1000 (festivals (db w))), w).
Proof.
  unfold get_festivals, bind, find_to_list, ret.
  now rewrite map_id.
Qed.

Lemma get_festival_found (festival_id : string) (w : world) (f : Festival.t) :
  find (fun doc => String.eqb (Festival.id doc) festival_id) (festivals (db w)) = Some f ->
  get_festival festival_id w = (Return f, w).
Proof.
  intros E. unfold get_festival, bind, find_one. now rewrite E.
Qed.

Lemma get_festival_missing (festival_id : string) (w : world) :
  find (fun doc => String.eqb (Festival.id doc) festival_id) (festivals (db w)) = None ->
  get_festival festival_id w = (Raise festival_not_found, w).
Proof.
  intros E. unfold get_festival, bind, find_one. now rewrite E.
Qed.

Lemma get_dj_profile_unchanged (w : world) : snd (get_dj_profile w) = w.
Proof.
  unfold get_dj_profile, bind, find_one.
  now destruct (find _ (dj_profiles (db w))).
Qed.

Lemma get_festival_unchanged (festival_id : string) (w : world) :
  snd (get_festival festival_id w) = w.
Proof.
  unfold get_festival, bind, find_one.
  now destruct (find _ (festivals (db w))).
Qed.

(** C7. Fetching a festival by id returns a stored festival document with
    that id whenever there is one, and fails with HTTP 404 "Festival not
    found" exactly when no stored festival document has that id. *)
Theorem get_festival_by_id (festival_id : string) (w : world) :
  (festival_exists (db w) festival_id ->
   exists f, get_festival festival_id w = (Return f, w)
             /\ In f (festivals (db w)) /\ Festival.id f = festival_id)
  /\ (fst (get_festival festival_id w)
      = Raise (mk_HTTPException 404 "Festival not found")
      <-> (forall f, In f (festivals (db w)) -> Festival.id f <> festival_id)).
Proof.
  destruct (find (fun doc => String.eqb (Festival.id doc) festival_id)
              (festivals (db w))) as [f|] eqn:E.
  - pose proof (lookup_some _ _ _ _ E) as [Hin Hid].
    rewrite (get_festival_found _ _ _ E). split.
    + intros _. now exists f.
    + split; [discriminate|].
      intros Hno. exfalso. now apply (Hno f).
  - pose proof (proj1 (lookup_none _ _ _) E) as Hno.
    rewrite (get_festival_missing _ _ E). split.
    + intros [f [Hin Hid]]. exfalso. now apply (Hno f).
    + split; [intros _; exact Hno | reflexivity].
Qed.

Lemma get_festival_by_id_witness :
  festival_exists (db seeded_world) "uuid-0"
  /\ (exists f, get_festival "uuid-0" seeded_world = (Return f, seeded_world)
                /\ In f (festivals (db seeded_world)) /\ Festival.id f = "uuid-0")
  /\ (forall f, In f (festivals (db seeded_world)) ->
                Festival.id f <> "invalid-festival-id")
  /\ fst (get_festival "invalid-festival-id" seeded_world)
     = Raise (mk_HTTPException 404 "Festival not found").
Proof.
  split; [exact seeded_world_festival|].
  split.
  - apply (proj1 (get_festival_by_id "uuid-0" seeded_world)).
    exact seeded_world_festival.
  - split; [exact seeded_world_no_invalid_festival|].
    apply (proj2 (get_festival_by_id "invalid-festival-id" seeded_world)).
    exact seeded_world_no_invalid_festival.
Defined.

Lemma crowded_world_festivals :
  festivals (db crowded_world)
  = repeat (plain_festival "early" "Side Stage" 2024) 1000
    ++ [plain_festival "late" "After Party" 2024].
Proof. reflexivity. Qed.

Lemma crowded_world_first_1000 :
  firstn 1000 (festivals (db crowded_world))
  = repeat (plain_festival "early" "Side Stage" 2024) 1000.
Proof.
  rewrite crowded_world_festivals.
  rewrite firstn_app, repeat_length, Nat.sub_diag, app_nil_r.
  apply firstn_all2. rewrite repeat_length. apply le_n.
Qed.

(** C3, as stated, fails on a store of 1001 festival documents: the last
    one is in the collection and not in the response. *)
Lemma get_festivals_omits_document :
  In (plain_festival "late" "After Party" 2024) (festivals (db crowded_world))
  /\ exists l w',
       get_festivals crowded_world = (Return l, w')
       /\ ~ In (plain_festival "late" "After Party" 2024) l.
Proof.
  split.
  - rewrite crowded_world_festivals. apply in_or_app. right. now left.
  - exists (firstn 1000 (festivals (db crowded_world))), crowded_world.
    split; [apply get_festivals_run|].
    rewrite crowded_world_first_1000. intros Hin.
    apply repeat_spec in Hin. discriminate Hin.
Qed.

(** C3, amended. Listing the festivals returns the first 1000 documents of
    the collection, in stored order, and leaves the store as it was; that is
    every document when the collection holds at most 1000, and the empty list
    when it is empty. *)
Theorem get_festivals_first_1000 (w : world) :
  exists l,
    get_festivals w = (Return l, w)
    /\ l = firstn 1000 (festivals (db w))
    /\ ((length (festivals (db w)) <= 1000)%nat -> l = festivals (db w))
    /\ (festivals (db w) = [] -> l = []).
Proof.
  exists (firstn 1000 (festivals (db w))).
  split; [apply get_festivals_run|].
  split; [reflexivity|].
  split.
  - apply firstn_all2.
  - intros ->. reflexivity.
Qed.

Lemma get_festivals_first_1000_witness :
  (length (festivals (db seeded_world)) <= 1000)%nat
  /\ get_festivals seeded_world = (Return (festivals (db seeded_world)), seeded_world)
  /\ festivals (db empty_world) = []
  /\ get_festivals empty_world = (Return [], empty_world).
Proof.
  assert (Hlen : (length (festivals (db seeded_world)) <= 1000)%nat).
  { vm_compute. repeat constructor. }
  split; [exact Hlen|].
  split.
  - destruct (get_festivals_first_1000 seeded_world) as [l [Hrun [_ [Hall _]]]].
    rewrite Hrun, (Hall Hlen). reflexivity.
  - split; [reflexivity|].
    destruct (get_festivals_first_1000 empty_world) as [l [Hrun [_ [_ Hnil]]]].
    rewrite Hrun, (Hnil eq_refl). reflexivity.
Defined.

(** ** The moments listing *)

Lemma get_nft_moments_returns (w : world) :
  exists m1 m2 m3,
    get_nft_moments w
    = (Return [m1; m2; m3],
       mk_world (db w) (uuid_source w) (3 + uuid_drawn w) (clock w) (3 + clock_read w)).
Proof. do 3 eexists. reflexivity. Qed.

Lemma get_nft_moments_db (w : world) : db (snd (get_nft_moments w)) = db w.
Proof. reflexivity. Qed.

(** C6. The moments listing returns exactly three records, titled "Sunrise
    Moment #001", "Forest Echo #002" and "Unity Flow #003" in this order,
    each with a rarity among legendary, rare and common and an image that
    starts with "data:image/svg+xml;base64,". *)
Theorem get_nft_moments_listing (w : world) :
  exists l w',
    get_nft_moments w = (Return l, w')
    /\ length l = 3%nat
    /\ map NFTMoment.title l
       = ["Sunrise Moment #001"; "Forest Echo #002"; "Unity Flow #003"]
    /\ Forall (fun m => In (NFTMoment.rarity m) ["legendary"; "rare"; "common"]) l
    /\ Forall (fun m => String.prefix "data:image/svg+xml;base64,"
                          (NFTMoment.image_base64 m) = true) l.
Proof.
  do 2 eexists. split; [reflexivity|].
  split; [reflexivity|].
  split; [reflexivity|].
  split.
  - repeat constructor; simpl; tauto.
  - repeat constructor; vm_compute; reflexivity.
Qed.

(** C4, as stated, fails: two calls in a row give lists that differ in the
    [id] of their first record (and in the other generated fields). *)
Lemma get_nft_moments_ids_differ :
  exists l1 w1 l2 w2,
    get_nft_moments seeded_world = (Return l1, w1)
    /\ get_nft_moments w1 = (Return l2, w2)
    /\ map NFTMoment.id l1 = ["uuid-2"; "uuid-3"; "uuid-4"]
    /\ map NFTMoment.id l2 = ["uuid-5"; "uuid-6"; "uuid-7"]
    /\ l1 <> l2.
Proof.
  exists (match fst (get_nft_moments seeded_world) with
          | Return l => l
          | Raise _ => []
          end),
         (snd (get_nft_moments seeded_world)),
         (match fst (get_nft_moments (snd (get_nft_moments seeded_world))) with
          | Return l => l
          | Raise _ => []
          end),
         (snd (get_nft_moments (snd (get_nft_moments seeded_world)))).
  split; [reflexivity|].
  split; [reflexivity|].
  split; [vm_compute; reflexivity|].
  split; [vm_compute; reflexivity|].
  intros Heq. apply (f_equal (map NFTMoment.id)) in Heq.
  vm_compute in Heq. discriminate Heq.
Qed.

(** C4, amended. Any two calls of the moments listing, against any stores,
    return lists that agree record by record in title, description, image,
    moment timestamp, rarity and attributes; the call leaves the store as it
    was and its result does not depend on the store.  The [id] and
    [created_at] of each record are drawn afresh on every call. *)
Theorem get_nft_moments_content_stable (w1 w2 : world) :
  exists l1 l2 w1' w2',
    get_nft_moments w1 = (Return l1, w1')
    /\ get_nft_moments w2 = (Return l2, w2')
    /\ map moment_content l1 = map moment_content l2
    /\ db w1' = db w1
    /\ db w2' = db w2
    /\ (forall d, fst (get_nft_moments (set_db w1 d)) = Return l1).
Proof.
  do 4 eexists.
  split; [reflexivity|].
  split; [reflexivity|].
  split; [reflexivity|].
  split; [reflexivity|].
  split; [reflexivity|].
  intros d. reflexivity.
Qed.

(** ** Frame *)

Lemma bind_ret_world {A B : Type} (m : M A) (f : A -> B) (w : world) :
  snd ((a <- m ;; ret (f a)) w) = snd (m w).
Proof.
  unfold bind, ret. now destruct (m w) as [[a|e] w'].
Qed.

(** C8. No operation of the interface deletes or changes a stored document.
    The four reads leave the database as it was.  Creating a reservation
    either fails and leaves the world as it was, or returns the new
    reservation, leaves [festivals] and [dj_profiles] as they were and adds
    that one document at the end of [ticket_reservations]. *)
Theorem operations_keep_documents (op : operation) (w : world) :
  match op with
  | CreateReservation _ =>
      (exists e, serve op w = (Raise e, w))
      \/ (exists reservation w',
            serve op w = (Return (ReservationBody reservation), w')
            /\ festivals (db w') = festivals (db w)
            /\ dj_profiles (db w') = dj_profiles (db w)
            /\ ticket_reservations (db w')
               = ticket_reservations (db w) ++ [reservation])
  | _ => db (snd (serve op w)) = db w
  end.
Proof.
  destruct op as [|festival_id| | |reservation_data]; simpl serve.
  - rewrite bind_ret_world, get_festivals_run. reflexivity.
  - rewrite bind_ret_world, get_festival_unchanged. reflexivity.
  - rewrite bind_ret_world, get_dj_profile_unchanged. reflexivity.
  - rewrite bind_ret_world. apply get_nft_moments_db.
  - destruct (find (fun doc => String.eqb (Festival.id doc)
                       (TicketReservationCreate.festival_id reservation_data))
                (festivals (db w))) as [f|] eqn:E.
    + right.
      exists (reservation_for reservation_data w),
             (after_reservation reservation_data w).
      unfold bind at 1.
      rewrite create_ticket_reservation_found.
      * repeat split; reflexivity.
      * exists f. now apply lookup_some in E.
    + left. exists festival_not_found.
      unfold bind at 1.
      rewrite create_ticket_reservation_missing; [reflexivity|].
      now apply lookup_none.
Qed.

(** ** Seeding *)

Lemma startup_event_seed_present (w : world) :
  seed_present (db w) -> startup_event w = (Return tt, w).
Proof.
  intros [Hf Hp].
  apply lookup_present in Hf. destruct Hf as [f Ef].
  apply lookup_present in Hp. destruct Hp as [p Ep].
  unfold startup_event, bind, find_one. rewrite Ef.
  unfold ret. rewrite Ep. reflexivity.
Qed.

Lemma startups_seed_present (n : nat) (w : world) :
  seed_present (db w) -> startups n w = (Return tt, w).
Proof.
  intros Hseed. induction n as [|n IH]; [reflexivity|].
  simpl startups. unfold bind.
  rewrite (startup_event_seed_present w Hseed). exact IH.
Qed.

Lemma seeded_world_seed_present : seed_present (db seeded_world).
Proof.
  split.
  - exists (hd (plain_festival "" "" 0) (festivals (db seeded_world))).
    split; vm_compute; [left|]; reflexivity.
  - exists (hd (DJProfile.mk "" "" "" "" [] 0 "" [] [] [] 0)
              (dj_profiles (db seeded_world))).
    split; vm_compute; [left|]; reflexivity.
Qed.

(** The first startup on an empty store leaves exactly one of each seed
    document. *)
Lemma seeded_world_seeded_once : seeded_once (db seeded_world).
Proof.
  split.
  - exists (hd (plain_festival "" "" 0) (festivals (db seeded_world))).
    split; vm_compute; reflexivity.
  - exists (hd (DJProfile.mk "" "" "" "" [] 0 "" [] [] [] 0)
              (dj_profiles (db seeded_world))).
    vm_compute. reflexivity.
Qed.

Lemma doubly_seeded_world_seed_present : seed_present (db doubly_seeded_world).
Proof.
  split.
  - exists (hd (plain_festival "" "" 0) (festivals (db doubly_seeded_world))).
    split; vm_compute; [left|]; reflexivity.
  - exists (hd (DJProfile.mk "" "" "" "" [] 0 "" [] [] [] 0)
              (dj_profiles (db doubly_seeded_world))).
    split; vm_compute; [left|]; reflexivity.
Qed.

(** C5, as stated, fails on a store that already holds the seed festival
    twice: the seeding step inserts nothing, and the store is left with two
    festival documents named "Moment Festival", not exactly one. *)
Lemma startup_keeps_duplicate_seed :
  seed_present (db doubly_seeded_world)
  /\ exists w',
       startups 1 doubly_seeded_world = (Return tt, w')
       /\ map Festival.id
            (documents_with Festival.name "Moment Festival" (festivals (db w')))
          = ["uuid-0"; "uuid-2"]
       /\ ~ seeded_once (db w').
Proof.
  split; [exact doubly_seeded_world_seed_present|].
  exists doubly_seeded_world.
  split; [apply startups_seed_present; exact doubly_seeded_world_seed_present|].
  split; [vm_compute; reflexivity|].
  intros [[f [Hone _]] _].
  apply (f_equal (@length Festival.t)) in Hone.
  vm_compute in Hone. discriminate Hone.
Qed.

(** C5, amended. On a store that already holds a festival named "Moment
    Festival" and a profile with stage name "DJ Senoh", running the seeding
    step any number of times inserts nothing and leaves the store as it was;
    so a store that held exactly one such festival, of year 2025, and exactly
    one such profile still holds exactly one of each. *)
Theorem startups_on_seeded_store (w : world) (n : nat) :
  seed_present (db w) ->
  startups n w = (Return tt, w)
  /\ (seeded_once (db w) -> seeded_once (db (snd (startups n w)))).
Proof.
  intros Hseed.
  rewrite (startups_seed_present n w Hseed).
  split; [reflexivity|].
  intros Honce. exact Honce.
Qed.

Lemma startups_on_seeded_store_witness :
  seed_present (db seeded_world)
  /\ startups 3 seeded_world = (Return tt, seeded_world)
  /\ seeded_once (db seeded_world)
  /\ seeded_once (db (snd (startups 3 seeded_world))).
Proof.
  split; [exact seeded_world_seed_present|].
  split.
  - apply (proj1 (startups_on_seeded_store seeded_world 3 seeded_world_seed_present)).
  - split; [exact seeded_world_seeded_once|].
    apply (proj2 (startups_on_seeded_store seeded_world 3 seeded_world_seed_present)).
    exact seeded_world_seeded_once.
Defined.

(** ** Advertised and charged prices *)





(** * Further properties of the handlers *)

(** ** What the seeding step does, case by case *)

Lemma sample_festival_run (w : world) :
  exists f,
    sample_festival w = (Return f, drawn 1 w (db w))
    /\ Festival.id f = uuid_source w (uuid_drawn w)
    /\ Festival.name f = "Moment Festival"
    /\ Festival.year f = 2025.
Proof. eexists. repeat split; reflexivity. Qed.

Lemma sample_dj_run (w : world) :
  exists p,
    sample_dj w = (Return p, drawn 1 w (db w))
    /\ DJProfile.id p = uuid_source w (uuid_drawn w)
    /\ DJProfile.stage_name p = "DJ Senoh"
    /\ DJProfile.name p = "Mike Senoh".
Proof. eexists. repeat split; reflexivity. Qed.

(** The seeding step, by the outcome of its two lookups. *)
Lemma startup_event_effect (w : world) :
  exists w',
    startup_event w = (Return tt, w')
    /\ ticket_reservations (db w') = ticket_reservations (db w)
    /\ uuid_source w' = uuid_source w
    /\ (uuid_drawn w <= uuid_drawn w')%nat
    /\ ((exists f, find (fun doc => String.eqb (Festival.name doc) "Moment Festival")
                     (festivals (db w)) = Some f)
        /\ festivals (db w') = festivals (db w)
        \/ find (fun doc => String.eqb (Festival.name doc) "Moment Festival")
             (festivals (db w)) = None
           /\ exists f, festivals (db w') = festivals (db w) ++ [f]
                        /\ Festival.name f = "Moment Festival"
                        /\ Festival.year f = 2025)
    /\ ((exists p, find (fun doc => String.eqb (DJProfile.stage_name doc) "DJ Senoh")
                     (dj_profiles (db w)) = Some p)
        /\ dj_profiles (db w') = dj_profiles (db w)
        \/ find (fun doc => String.eqb (DJProfile.stage_name doc) "DJ Senoh")
             (dj_profiles (db w)) = None
           /\ exists p, dj_profiles (db w') = dj_profiles (db w) ++ [p]
                        /\ DJProfile.stage_name p = "DJ Senoh"
                        /\ DJProfile.name p = "Mike Senoh").
Proof.
  destruct (find (fun doc => String.eqb (Festival.name doc) "Moment Festival")
              (festivals (db w))) as [f|] eqn:Ef;
    destruct (find (fun doc => String.eqb (DJProfile.stage_name doc) "DJ Senoh")
                (dj_profiles (db w))) as [p|] eqn:Ep;
    eexists;
    (split;
     [ unfold startup_event, bind at 1, find_one at 1; rewrite Ef;
       unfold bind, find_one, sample_festival, new_Festival, sample_dj, new_DJProfile,
         bind, uuid4, utcnow, ret, insert_one_festival, insert_one_dj_profile, set_db;
       cbn [db dj_profiles festivals]; rewrite Ep; reflexivity
     | cbn [db ticket_reservations festivals dj_profiles uuid_source uuid_drawn] ]).
  - repeat split; [lia | left; eauto | left; eauto].
  - repeat split; [lia | left; eauto | right]. split; [reflexivity|].
    eexists. repeat split; reflexivity.
  - repeat split; [lia | right | left; eauto]. split; [reflexivity|].
    eexists. repeat split; reflexivity.
  - repeat split; [lia | right | right]; (split; [reflexivity|]);
      eexists; repeat split; reflexivity.
Qed.

Lemma documents_with_none {D : Type} (field : D -> string) (value : string)
    (l : list D) :
  (forall d, In d l -> field d <> value) -> documents_with field value l = [].
Proof.
  induction l as [|a l IH]; intros Hno; [reflexivity|].
  unfold documents_with in *. simpl.
  destruct (String.eqb (field a) value) eqn:E.
  - apply String.eqb_eq in E. exfalso. apply (Hno a); [now left | exact E].
  - apply IH. intros d Hin. apply Hno. now right.
Qed.

Lemma documents_with_snoc {D : Type} (field : D -> string) (value : string)
    (l : list D) (d : D) :
  (forall d', In d' l -> field d' <> value) -> field d = value ->
  documents_with field value (l ++ [d]) = [d].
Proof.
  intros Hno Hd. unfold documents_with. rewrite filter_app.
  fold (documents_with field value l). rewrite (documents_with_none _ _ _ Hno).
  simpl. now rewrite (proj2 (String.eqb_eq _ _) Hd).
Qed.

Lemma startup_event_seed_present_after (w : world) :
  seed_present (db (snd (startup_event w))).
Proof.
  destruct (startup_event_effect w)
    as [w' [Hrun [_ [_ [_ [Hfest Hdj]]]]]].
  rewrite Hrun. simpl snd. split.
  - destruct Hfest as [[[f Ef] Hsame] | [_ [f [Happ [Hname _]]]]].
    + exists f. rewrite Hsame. now apply lookup_some in Ef.
    + exists f. rewrite Happ. split; [apply in_or_app; right; now left | exact Hname].
  - destruct Hdj as [[[p Ep] Hsame] | [_ [p [Happ [Hname _]]]]].
    + exists p. rewrite Hsame. now apply lookup_some in Ep.
    + exists p. rewrite Happ. split; [apply in_or_app; right; now left | exact Hname].
Qed.

Lemma lookup_first {D : Type} (field : D -> string) (value : string)
    (l : list D) (d : D) :
  find (fun doc => String.eqb (field doc) value) l = Some d ->
  exists before after,
    l = before ++ d :: after
    /\ field d = value
    /\ forall d', In d' before -> field d' <> value.
Proof.
  induction l as [|a l IH]; intros H; simpl in H; [discriminate|].
  destruct (String.eqb (field a) value) eqn:E.
  - injection H as <-. exists [], l. apply String.eqb_eq in E.
    split; [reflexivity|]. split; [exact E|]. intros d' [].
  - destruct (IH H) as [before [after [Hl [Hd Hbefore]]]].
    exists (a :: before), after. split; [simpl; now rewrite Hl|].
    split; [exact Hd|].
    intros d' [<-|Hin]; [now apply String.eqb_neq | now apply Hbefore].
Qed.

(** X1. The profile endpoint returns the first stored profile whose stage
    name is "DJ Senoh" when there is one (no profile stored before it has
    that stage name), fails with HTTP 404 "DJ Profile not found" exactly when
    there is none, and leaves the world as it was. *)
Theorem get_dj_profile_by_stage_name (w : world) :
  ((exists p, In p (dj_profiles (db w)) /\ DJProfile.stage_name p = "DJ Senoh") ->
   exists p before after,
     get_dj_profile w = (Return p, w)
     /\ dj_profiles (db w) = before ++ p :: after
     /\ DJProfile.stage_name p = "DJ Senoh"
     /\ forall q, In q before -> DJProfile.stage_name q <> "DJ Senoh")
  /\ (fst (get_dj_profile w) = Raise (mk_HTTPException 404 "DJ Profile not found")
      <-> (forall p, In p (dj_profiles (db w)) -> DJProfile.stage_name p <> "DJ Senoh"))
  /\ snd (get_dj_profile w) = w.
Proof.
  unfold get_dj_profile, bind, find_one.
  destruct (find (fun doc => String.eqb (DJProfile.stage_name doc) "DJ Senoh")
              (dj_profiles (db w))) as [p|] eqn:E.
  - pose proof (lookup_some _ _ _ _ E) as [Hin Hname].
    destruct (lookup_first _ _ _ _ E) as [before [after [Hl [_ Hbefore]]]].
    split; [intros _; now exists p, before, after|].
    split; [|reflexivity].
    split; [discriminate|].
    intros Hno. exfalso. now apply (Hno p).
  - pose proof (proj1 (lookup_none _ _ _) E) as Hno.
    split; [intros [p [Hin Hname]]; exfalso; now apply (Hno p)|].
    split; [|reflexivity].
    split; [intros _; exact Hno | reflexivity].
Qed.

Lemma empty_world_no_profile :
  forall p, In p (dj_profiles (db empty_world)) -> DJProfile.stage_name p <> "DJ Senoh".
Proof. intros p []. Qed.

Lemma get_dj_profile_by_stage_name_witness :
  (exists p, In p (dj_profiles (db seeded_world)) /\ DJProfile.stage_name p = "DJ Senoh")
  /\ (exists p before after,
        get_dj_profile seeded_world = (Return p, seeded_world)
        /\ dj_profiles (db seeded_world) = before ++ p :: after
        /\ DJProfile.stage_name p = "DJ Senoh"
        /\ forall q, In q before -> DJProfile.stage_name q <> "DJ Senoh")
  /\ (forall p, In p (dj_profiles (db empty_world)) ->
                DJProfile.stage_name p <> "DJ Senoh")
  /\ fst (get_dj_profile empty_world)
     = Raise (mk_HTTPException 404 "DJ Profile not found").
Proof.
  split; [exact (proj2 seeded_world_seed_present)|].
  split.
  - apply (proj1 (get_dj_profile_by_stage_name seeded_world)).
    exact (proj2 seeded_world_seed_present).
  - split; [exact empty_world_no_profile|].
    apply (proj1 (proj2 (get_dj_profile_by_stage_name empty_world))).
    exact empty_world_no_profile.
Defined.

(** X2. On a store with no festival named "Moment Festival" and no profile
    with stage name "DJ Senoh", the seeding step adds one festival of that
    name and year 2025 at the end of [festivals] and one such profile at the
    end of [dj_profiles], touches nothing else, and leaves exactly one of
    each seed document. *)
Theorem startup_event_seeds_unseeded_store (w : world) :
  (forall f, In f (festivals (db w)) -> Festival.name f <> "Moment Festival") ->
  (forall p, In p (dj_profiles (db w)) -> DJProfile.stage_name p <> "DJ Senoh") ->
  exists f p w',
    startup_event w = (Return tt, w')
    /\ festivals (db w') = festivals (db w) ++ [f]
    /\ dj_profiles (db w') = dj_profiles (db w) ++ [p]
    /\ ticket_reservations (db w') = ticket_reservations (db w)
    /\ Festival.name f = "Moment Festival" /\ Festival.year f = 2025
    /\ DJProfile.stage_name p = "DJ Senoh" /\ DJProfile.name p = "Mike Senoh"
    /\ seeded_once (db w').
Proof.
  intros Hnof Hnop.
  destruct (startup_event_effect w)
    as [w' [Hrun [Hres [_ [_ [Hfest Hdj]]]]]].
  destruct Hfest as [[[f Ef] _] | [_ [f [Hfapp [Hfname Hfyear]]]]].
  { apply lookup_some in Ef. exfalso. now apply (Hnof f). }
  destruct Hdj as [[[p Ep] _] | [_ [p [Hpapp [Hpstage Hpname]]]]].
  { apply lookup_some in Ep. exfalso. now apply (Hnop p). }
  exists f, p, w'.
  repeat (split; [assumption|]).
  split.
  - exists f. rewrite Hfapp. split; [now apply documents_with_snoc | exact Hfyear].
  - exists p. rewrite Hpapp. now apply documents_with_snoc.
Qed.

Lemma startup_event_seeds_unseeded_store_witness :
  (forall f, In f (festivals (db crowded_world)) ->
             Festival.name f <> "Moment Festival")
  /\ (forall p, In p (dj_profiles (db crowded_world)) ->
                DJProfile.stage_name p <> "DJ Senoh")
  /\ exists w',
       startup_event crowded_world = (Return tt, w')
       /\ length (festivals (db w')) = 1002%nat
       /\ seeded_once (db w').
Proof.
  assert (Hnof : forall f, In f (festivals (db crowded_world)) ->
                           Festival.name f <> "Moment Festival").
  { apply lookup_none. vm_compute. reflexivity. }
  assert (Hnop : forall p, In p (dj_profiles (db crowded_world)) ->
                           DJProfile.stage_name p <> "DJ Senoh").
  { intros p []. }
  split; [exact Hnof|]. split; [exact Hnop|].
  destruct (startup_event_seeds_unseeded_store crowded_world Hnof Hnop)
    as [f [p [w' [Hrun [Hf [_ [_ [_ [_ [_ [_ Honce]]]]]]]]]]].
  exists w'. split; [exact Hrun|]. split; [|exact Honce].
  rewrite Hf, length_app. vm_compute. reflexivity.
Defined.

(** X3. The two seed documents are handled independently of each other: a
    collection that already holds its seed document is left as it is, and one
    that does not gets it appended, whatever the state of the other
    collection. *)
Theorem startup_event_seeds_each_collection (w : world) :
  ((exists f, In f (festivals (db w)) /\ Festival.name f = "Moment Festival") ->
   festivals (db (snd (startup_event w))) = festivals (db w))
  /\ ((forall f, In f (festivals (db w)) -> Festival.name f <> "Moment Festival") ->
      exists f, festivals (db (snd (startup_event w))) = festivals (db w) ++ [f]
                /\ Festival.name f = "Moment Festival" /\ Festival.year f = 2025)
  /\ ((exists p, In p (dj_profiles (db w)) /\ DJProfile.stage_name p = "DJ Senoh") ->
      dj_profiles (db (snd (startup_event w))) = dj_profiles (db w))
  /\ ((forall p, In p (dj_profiles (db w)) -> DJProfile.stage_name p <> "DJ Senoh") ->
      exists p, dj_profiles (db (snd (startup_event w))) = dj_profiles (db w) ++ [p]
                /\ DJProfile.stage_name p = "DJ Senoh"
                /\ DJProfile.name p = "Mike Senoh").
Proof.
  destruct (startup_event_effect w)
    as [w' [Hrun [_ [_ [_ [Hfest Hdj]]]]]].
  rewrite Hrun. simpl snd.
  split; [|split; [|split]].
  - intros Hex. destruct Hfest as [[_ Hsame] | [Enone _]]; [exact Hsame|].
    apply lookup_present in Hex. destruct Hex as [f Ef]. congruence.
  - intros Hno. destruct Hfest as [[[f Ef] _] | [_ Hadd]]; [|exact Hadd].
    apply lookup_some in Ef. exfalso. now apply (Hno f).
  - intros Hex. destruct Hdj as [[_ Hsame] | [Enone _]]; [exact Hsame|].
    apply lookup_present in Hex. destruct Hex as [p Ep]. congruence.
  - intros Hno. destruct Hdj as [[[p Ep] _] | [_ Hadd]]; [|exact Hadd].
    apply lookup_some in Ep. exfalso. now apply (Hno p).
Qed.

(** A store that holds the seed festival and no profile. *)
Lemma festival_only_world_facts :
  let w := set_db seeded_world
             (mk_database (festivals (db seeded_world)) []
                          (ticket_reservations (db seeded_world))) in
  (exists f, In f (festivals (db w)) /\ Festival.name f = "Moment Festival")
  /\ (forall p, In p (dj_profiles (db w)) -> DJProfile.stage_name p <> "DJ Senoh").
Proof.
  split.
  - exact (proj1 seeded_world_seed_present).
  - intros p [].
Qed.

Lemma startup_event_seeds_each_collection_witness :
  let w := set_db seeded_world
             (mk_database (festivals (db seeded_world)) []
                          (ticket_reservations (db seeded_world))) in
  (exists f, In f (festivals (db w)) /\ Festival.name f = "Moment Festival")
  /\ (forall p, In p (dj_profiles (db w)) -> DJProfile.stage_name p <> "DJ Senoh")
  /\ festivals (db (snd (startup_event w))) = festivals (db w)
  /\ exists p, dj_profiles (db (snd (startup_event w))) = dj_profiles (db w) ++ [p]
               /\ DJProfile.stage_name p = "DJ Senoh"
               /\ DJProfile.name p = "Mike Senoh".
Proof.
  intros w.
  split; [exact (proj1 festival_only_world_facts)|].
  split; [exact (proj2 festival_only_world_facts)|].
  split.
  - apply (proj1 (startup_event_seeds_each_collection w)).
    exact (proj1 festival_only_world_facts).
  - apply (proj2 (proj2 (proj2 (startup_event_seeds_each_collection w)))).
    exact (proj2 festival_only_world_facts).
Defined.

(** X4. The seeding step is idempotent on every store: running it any
    number of times more leaves the world exactly as the first run left it,
    and every run returns without error. *)
Theorem startup_event_idempotent (w : world) (n : nat) :
  startups (S n) w = (Return tt, snd (startup_event w)).
Proof.
  pose proof (startup_event_seed_present_after w) as Hseed.
  destruct (startup_event_effect w) as [w' [Hrun _]].
  simpl startups. unfold bind. rewrite Hrun in *. simpl snd in *.
  now apply startups_seed_present.
Qed.

(** X5. On every store the seeding step returns without error, keeps every
    document where it was (each collection afterwards is the one before with
    at most one document added at the end, and [ticket_reservations] is
    untouched), and leaves a festival named "Moment Festival" and a profile
    with stage name "DJ Senoh" in the store. *)
Theorem startup_event_keeps_documents (w : world) :
  exists w' new_festivals new_profiles,
    startup_event w = (Return tt, w')
    /\ festivals (db w') = festivals (db w) ++ new_festivals
    /\ dj_profiles (db w') = dj_profiles (db w) ++ new_profiles
    /\ ticket_reservations (db w') = ticket_reservations (db w)
    /\ (length new_festivals <= 1)%nat
    /\ (length new_profiles <= 1)%nat
    /\ seed_present (db w').
Proof.
  pose proof (startup_event_seed_present_after w) as Hseed.
  destruct (startup_event_effect w)
    as [w' [Hrun [Hres [_ [_ [Hfest Hdj]]]]]].
  rewrite Hrun in Hseed. simpl snd in Hseed.
  destruct Hfest as [[_ Hfsame] | [_ [f [Hfapp _]]]];
    destruct Hdj as [[_ Hpsame] | [_ [p [Hpapp _]]]].
  - exists w', [], []. rewrite !app_nil_r. simpl. repeat split; auto; apply Hseed.
  - exists w', [], [p]. rewrite !app_nil_r. simpl. repeat split; auto; apply Hseed.
  - exists w', [f], []. rewrite !app_nil_r. simpl. repeat split; auto; apply Hseed.
  - exists w', [f], [p]. simpl. repeat split; auto; apply Hseed.
Qed.

(** ** What one operation does to the world *)

Lemma has_festival_exists (d : database) (festival_id : string) :
  has_festival (festivals d) festival_id = true <-> festival_exists d festival_id.
Proof.
  unfold has_festival, festival_exists. rewrite existsb_exists.
  split; intros [f [Hin Hid]]; exists f; (split; [exact Hin|]);
    now apply String.eqb_eq.
Qed.

Lemma has_festival_missing (d : database) (festival_id : string) :
  has_festival (festivals d) festival_id = false ->
  forall f, In f (festivals d) -> Festival.id f <> festival_id.
Proof.
  intros Hfalse f Hin Hid.
  assert (Htrue : has_festival (festivals d) festival_id = true).
  { apply has_festival_exists. now exists f. }
  congruence.
Qed.

Lemma serve_effect (op : operation) (w : world) :
  uuid_source (snd (serve op w)) = uuid_source w
  /\ (uuid_drawn w <= uuid_drawn (snd (serve op w)))%nat
  /\ festivals (db (snd (serve op w))) = festivals (db w)
  /\ dj_profiles (db (snd (serve op w))) = dj_profiles (db w)
  /\ (accepted_reservation (festivals (db w)) op = false
      /\ ticket_reservations (db (snd (serve op w))) = ticket_reservations (db w)
      \/ exists reservation_data,
           op = CreateReservation reservation_data
           /\ accepted_reservation (festivals (db w)) op = true
           /\ snd (serve op w) = after_reservation reservation_data w).
Proof.
  destruct op as [|festival_id| | |reservation_data]; simpl serve;
    rewrite bind_ret_world.
  - rewrite get_festivals_run. simpl. repeat split; auto.
  - rewrite get_festival_unchanged. simpl. repeat split; auto.
  - rewrite get_dj_profile_unchanged. simpl. repeat split; auto.
  - repeat split; try reflexivity.
    + change (uuid_drawn (snd (get_nft_moments w))) with (3 + uuid_drawn w)%nat. lia.
    + left. split; reflexivity.
  - simpl accepted_reservation.
    destruct (has_festival (festivals (db w))
                (TicketReservationCreate.festival_id reservation_data)) eqn:E.
    + rewrite create_ticket_reservation_found by now apply has_festival_exists.
      simpl. repeat split; auto. right. now exists reservation_data.
    + rewrite create_ticket_reservation_missing by now apply has_festival_missing.
      simpl. repeat split; auto.
Qed.

Lemma serve_all_invariant (P : world -> Prop) :
  (forall op w, P w -> P (snd (serve op w))) ->
  forall ops w, P w -> P (serve_all ops w).
Proof.
  intros Hstep ops. induction ops as [|op rest IH]; intros w Hw; simpl.
  - exact Hw.
  - apply IH. now apply Hstep.
Qed.

Lemma serve_all_collections (ops : list operation) (w : world) :
  festivals (db (serve_all ops w)) = festivals (db w)
  /\ dj_profiles (db (serve_all ops w)) = dj_profiles (db w).
Proof.
  apply (serve_all_invariant
           (fun w' => festivals (db w') = festivals (db w)
                      /\ dj_profiles (db w') = dj_profiles (db w)));
    [|split; reflexivity].
  intros op w' [Hf Hp].
  destruct (serve_effect op w') as [_ [_ [Hf' [Hp' _]]]].
  split; congruence.
Qed.


(** X7. Once the seeding step has run, no session makes the profile endpoint
    fail: it returns a profile with stage name "DJ Senoh", and a festival
    named "Moment Festival" is still in the store. *)
Theorem seed_survives_session (w : world) (ops : list operation) :
  exists p,
    get_dj_profile (serve_all ops (snd (startup_event w)))
    = (Return p, serve_all ops (snd (startup_event w)))
    /\ DJProfile.stage_name p = "DJ Senoh"
    /\ exists f, In f (festivals (db (serve_all ops (snd (startup_event w)))))
                 /\ Festival.name f = "Moment Festival".
Proof.
  pose proof (startup_event_seed_present_after w) as [Hf Hp].
  destruct (serve_all_collections ops (snd (startup_event w))) as [Hfs Hps].
  rewrite <- Hps in Hp. rewrite <- Hfs in Hf.
  apply lookup_present in Hp. destruct Hp as [p Ep].
  exists p. split; [|split; [now apply lookup_some in Ep | exact Hf]].
  unfold get_dj_profile, bind, find_one. now rewrite Ep.
Qed.

(** X8. Referential integrity is an invariant: if every stored reservation
    names a stored festival, this still holds after any session and after the
    seeding step. *)
Theorem references_stay_intact (ops : list operation) (w : world) :
  references_intact (db w) ->
  references_intact (db (serve_all ops w))
  /\ references_intact (db (snd (startup_event w))).
Proof.
  intros Hw. split.
  - apply (serve_all_invariant (fun w' => references_intact (db w'))); [|exact Hw].
    intros op w' Hw'. unfold references_intact, festival_exists in *.
    destruct (serve_effect op w') as [_ [_ [Hf [_ Hcase]]]].
    rewrite Hf.
    destruct Hcase as [[_ Hsame] | [reservation_data [Hop [Hyes Hafter]]]].
    + now rewrite Hsame.
    + subst op. rewrite Hafter. simpl. apply Forall_app. split; [exact Hw'|].
      constructor; [|constructor]. simpl.
      apply (proj1 (has_festival_exists (db w') _)). exact Hyes.
  - destruct (startup_event_effect w)
      as [w' [Hrun [Hres [_ [_ [Hfest _]]]]]].
    rewrite Hrun. simpl snd. unfold references_intact, festival_exists in *.
    rewrite Hres.
    destruct Hfest as [[_ Hsame] | [_ [f [Happ _]]]].
    + now rewrite Hsame.
    + rewrite Happ. eapply Forall_impl; [|exact Hw].
      intros r [f' [Hin Hid]]. exists f'. split; [|exact Hid].
      apply in_or_app. now left.
Qed.

Lemma booked_world_references_intact : references_intact (db booked_world).
Proof.
  vm_compute. constructor; [|constructor].
  eexists. split; [left; reflexivity | reflexivity].
Qed.

Lemma references_stay_intact_witness :
  references_intact (db booked_world)
  /\ references_intact
       (db (serve_all [CreateReservation (sample_request "uuid-0");
                       CreateReservation (sample_request "invalid-festival-id");
                       ListNFTMoments]
              booked_world))
  /\ references_intact (db (snd (startup_event booked_world))).
Proof.
  split; [exact booked_world_references_intact|].
  apply (references_stay_intact
           [CreateReservation (sample_request "uuid-0");
            CreateReservation (sample_request "invalid-festival-id");
            ListNFTMoments]
           booked_world).
  exact booked_world_references_intact.
Defined.

(** X9. The price rule is an invariant of the store: if every stored
    reservation carries its type's listed price times its quantity and the
    status "pending", this still holds after any session and after the
    seeding step. *)
Theorem reservations_stay_priced (ops : list operation) (w : world) :
  reservations_priced (db w) ->
  reservations_priced (db (serve_all ops w))
  /\ reservations_priced (db (snd (startup_event w))).
Proof.
  intros Hw. split.
  - apply (serve_all_invariant (fun w' => reservations_priced (db w'))); [|exact Hw].
    intros op w' Hw'. unfold reservations_priced in *.
    destruct (serve_effect op w') as [_ [_ [_ [_ Hcase]]]].
    destruct Hcase as [[_ Hsame] | [reservation_data [_ [_ Hafter]]]].
    + now rewrite Hsame.
    + rewrite Hafter. simpl. apply Forall_app. split; [exact Hw'|].
      constructor; [|constructor]. simpl.
      split; [now rewrite ticket_prices_listed | reflexivity].
  - destruct (startup_event_effect w) as [w' [Hrun [Hres _]]].
    rewrite Hrun. simpl snd. unfold reservations_priced in *. now rewrite Hres.
Qed.

Lemma booked_world_priced : reservations_priced (db booked_world).
Proof.
  vm_compute. constructor; [|constructor]. split; reflexivity.
Qed.

Lemma reservations_stay_priced_witness :
  reservations_priced (db booked_world)
  /\ reservations_priced
       (db (serve_all [CreateReservation (sample_request "uuid-0"); GetDJProfile]
              booked_world))
  /\ reservations_priced (db (snd (startup_event booked_world))).
Proof.
  split; [exact booked_world_priced|].
  apply (reservations_stay_priced
           [CreateReservation (sample_request "uuid-0"); GetDJProfile] booked_world).
  exact booked_world_priced.
Defined.





(** ** Identifiers *)

Lemma sample_uuid_injective (i j : nat) : sample_uuid i = sample_uuid j -> i = j.
Proof.
  unfold sample_uuid. intros H. simpl in H. injection H as H.
  apply DecimalNat.Unsigned.to_uint_inj.
  apply (f_equal NilEmpty.uint_of_string) in H.
  rewrite !NilEmpty.usu in H. now injection H.
Qed.

Lemma reservation_ids_step (w0 : world) (op : operation) (w : world) :
  (forall i j, uuid_source w0 i = uuid_source w0 j -> i = j) ->
  uuid_source w = uuid_source w0 /\ reservation_ids_drawn w ->
  uuid_source (snd (serve op w)) = uuid_source w0
  /\ reservation_ids_drawn (snd (serve op w)).
Proof.
  intros Hinj [Hsrc [Hnodup Hdrawn]].
  destruct (serve_effect op w) as [Hsrc' [Hle [_ [_ Hcase]]]].
  split; [congruence|].
  unfold reservation_ids_drawn.
  destruct Hcase as [[_ Hsame] | [reservation_data [_ [_ Hafter]]]].
  - rewrite Hsame, Hsrc'. split; [exact Hnodup|].
    eapply Forall_impl; [|exact Hdrawn].
    intros r [k [Hk Hid]]. exists k. split; [lia | exact Hid].
  - rewrite Hafter. simpl. split.
    + rewrite map_app. apply NoDup_app; [exact Hnodup | |].
      * constructor; [intros [] | constructor].
      * intros a Ha [Heq|[]]. simpl in Heq.
        apply in_map_iff in Ha. destruct Ha as [r [Hr Hin]].
        rewrite Forall_forall in Hdrawn. destruct (Hdrawn r Hin) as [k [Hk Hid]].
        assert (Hkk : k = uuid_drawn w).
        { apply Hinj. rewrite <- Hsrc. congruence. }
        lia.
    + apply Forall_app. split.
      * eapply Forall_impl; [|exact Hdrawn].
        intros r [k [Hk Hid]]. exists k. split; [lia | exact Hid].
      * constructor; [|constructor]. exists (uuid_drawn w). split; [lia | reflexivity].
Qed.

(** X12. Reservation ids never repeat: when [uuid4] never hands out the same
    value twice and the stored reservations carry distinct ids it handed out
    earlier, then after any session the stored reservations still carry
    distinct ids handed out earlier; the seeding step keeps this too. *)
Theorem reservation_ids_stay_distinct (ops : list operation) (w : world) :
  (forall i j, uuid_source w i = uuid_source w j -> i = j) ->
  reservation_ids_drawn w ->
  reservation_ids_drawn (serve_all ops w)
  /\ NoDup (map TicketReservation.id (ticket_reservations (db (serve_all ops w))))
  /\ reservation_ids_drawn (snd (startup_event w)).
Proof.
  intros Hinj Hw.
  assert (Hsession : uuid_source (serve_all ops w) = uuid_source w
                     /\ reservation_ids_drawn (serve_all ops w)).
  { apply (serve_all_invariant
             (fun w' => uuid_source w' = uuid_source w /\ reservation_ids_drawn w'));
      [|split; [reflexivity | exact Hw]].
    intros op w' Hw'. now apply reservation_ids_step. }
  split; [apply Hsession|].
  split; [apply Hsession|].
  destruct (startup_event_effect w) as [w' [Hrun [Hres [Hsrc [Hle _]]]]].
  rewrite Hrun. simpl snd. destruct Hw as [Hnodup Hdrawn].
  unfold reservation_ids_drawn. rewrite Hres, Hsrc. split; [exact Hnodup|].
  eapply Forall_impl; [|exact Hdrawn].
  intros r [k [Hk Hid]]. exists k. split; [lia | exact Hid].
Qed.

Lemma booked_world_ids_drawn : reservation_ids_drawn booked_world.
Proof.
  split.
  - vm_compute. constructor; [intros [] | constructor].
  - change (ticket_reservations (db booked_world))
      with [reservation_for (sample_request "uuid-0") seeded_world].
    constructor; [|constructor].
    exists 2%nat. split; [vm_compute; repeat constructor | reflexivity].
Qed.

Lemma reservation_ids_stay_distinct_witness :
  (forall i j, uuid_source booked_world i = uuid_source booked_world j -> i = j)
  /\ reservation_ids_drawn booked_world
  /\ NoDup (map TicketReservation.id
              (ticket_reservations
                 (db (serve_all [CreateReservation (sample_request "uuid-0");
                                 ListNFTMoments;
                                 CreateReservation (sample_request "uuid-0")]
                        booked_world)))).
Proof.
  split; [exact sample_uuid_injective|].
  split; [exact booked_world_ids_drawn|].
  apply (reservation_ids_stay_distinct
           [CreateReservation (sample_request "uuid-0"); ListNFTMoments;
            CreateReservation (sample_request "uuid-0")]
           booked_world sample_uuid_injective booked_world_ids_drawn).
Defined.


(** * Properties of the test harness *)

(** Follows a completed check along the branch it took. *)
Ltac split_check H :=
  repeat match type of H with
         | Some _ = Some _ => injection H as <- <-
         | None = Some _ => discriminate H
         | context [match ?x with _ => _ end] => destruct x eqn:?
         | context [if ?x then _ else _] => destruct x eqn:?
         end.

Lemma passed_all (results : list (string * bool)) :
  Nat.eqb (length (filter (fun result => snd result) results)) (length results)
  = forallb (fun result => snd result) results.
Proof.
  assert (Hle : forall l : list (string * bool),
             (length (filter (fun result => snd result) l) <= length l)%nat).
  { intros l. induction l as [|[n b] l IH]; simpl; [lia|]. destruct b; simpl; lia. }
  induction results as [|[name success] results IH]; [reflexivity|].
  simpl. destruct success; simpl.
  - exact IH.
  - apply Nat.eqb_neq. pose proof (Hle results). lia.
Qed.

Section HarnessFacts.
Context {T : Type}.
Variable send : request -> T -> reply * T.

Lemma test_festivals_list_logs (self self' : BackendTester) (net net' : T) :
  test_festivals_list send self net = Some (self', net') ->
  exists success,
    test_results self' = test_results self ++ [("Festival List API", success)].
Proof.
  unfold test_festivals_list. intros H.
  split_check H; eexists; reflexivity.
Qed.

Lemma test_festival_detail_logs (self self' : BackendTester) (net net' : T) :
  test_festival_detail send self net = Some (self', net') ->
  exists success,
    test_results self' = test_results self ++ [("Festival Detail API", success)].
Proof.
  unfold test_festival_detail. intros H.
  split_check H; eexists; reflexivity.
Qed.

Lemma test_dj_profile_logs (self self' : BackendTester) (net net' : T) :
  test_dj_profile send self net = Some (self', net') ->
  exists success,
    test_results self' = test_results self ++ [("DJ Profile API", success)].
Proof.
  unfold test_dj_profile. intros H.
  split_check H; eexists; reflexivity.
Qed.

Lemma test_nft_moments_logs (self self' : BackendTester) (net net' : T) :
  test_nft_moments send self net = Some (self', net') ->
  exists success,
    test_results self' = test_results self ++ [("NFT Moments API", success)].
Proof.
  unfold test_nft_moments. intros H.
  split_check H; eexists; reflexivity.
Qed.

Lemma test_ticket_reservation_logs (self self' : BackendTester) (net net' : T) :
  test_ticket_reservation send self net = Some (self', net') ->
  exists success,
    test_results self' = test_results self ++ [("Ticket Reservation API", success)].
Proof.
  unfold test_ticket_reservation. intros H.
  split_check H; eexists; reflexivity.
Qed.

Lemma test_ticket_reservation_validation_logs
    (self self' : BackendTester) (net net' : T) :
  test_ticket_reservation_validation send self net = Some (self', net') ->
  exists success,
    test_results self' = test_results self ++ [("Ticket Reservation Validation", success)].
Proof.
  unfold test_ticket_reservation_validation. intros H.
  split_check H; eexists; reflexivity.
Qed.

Lemma run_checks_logs (self self' : BackendTester) (net net' : T) :
  run_checks send self net = Some (self', net') ->
  exists s1 s2 s3 s4 s5 s6,
    test_results self'
    = test_results self
      ++ [ ("Festival List API", s1); ("Festival Detail API", s2);
           ("DJ Profile API", s3); ("NFT Moments API", s4);
           ("Ticket Reservation API", s5); ("Ticket Reservation Validation", s6) ].
Proof.
  unfold run_checks. intros H.
  destruct (test_festivals_list send self net) as [[t1 n1]|] eqn:E1; [|discriminate].
  destruct (test_festival_detail send t1 n1) as [[t2 n2]|] eqn:E2; [|discriminate].
  destruct (test_dj_profile send t2 n2) as [[t3 n3]|] eqn:E3; [|discriminate].
  destruct (test_nft_moments send t3 n3) as [[t4 n4]|] eqn:E4; [|discriminate].
  destruct (test_ticket_reservation send t4 n4) as [[t5 n5]|] eqn:E5; [|discriminate].
  apply test_festivals_list_logs in E1. destruct E1 as [s1 E1].
  apply test_festival_detail_logs in E2. destruct E2 as [s2 E2].
  apply test_dj_profile_logs in E3. destruct E3 as [s3 E3].
  apply test_nft_moments_logs in E4. destruct E4 as [s4 E4].
  apply test_ticket_reservation_logs in E5. destruct E5 as [s5 E5].
  apply test_ticket_reservation_validation_logs in H. destruct H as [s6 E6].
  exists s1, s2, s3, s4, s5, s6.
  rewrite E6, E5, E4, E3, E2, E1. now rewrite <- !app_assoc.
Qed.

(** X13. A run that completes has logged exactly one result for each of the
    six checks, in the order they run, after the results the tester already
    held; it returns [True] exactly when every result the tester then holds
    is a pass. *)
Theorem run_all_tests_summary (self self' : BackendTester) (net net' : T) (ok : bool) :
  run_all_tests send self net = Some (ok, self', net') ->
  exists s1 s2 s3 s4 s5 s6,
    test_results self'
    = test_results self
      ++ [ ("Festival List API", s1); ("Festival Detail API", s2);
           ("DJ Profile API", s3); ("NFT Moments API", s4);
           ("Ticket Reservation API", s5); ("Ticket Reservation Validation", s6) ]
    /\ ok = (forallb (fun result => snd result) (test_results self)
             && (s1 && s2 && s3 && s4 && s5 && s6))%bool.
Proof.
  unfold run_all_tests. intros H.
  destruct (run_checks send self net) as [[t n]|] eqn:E; [|discriminate].
  apply run_checks_logs in E. destruct E as [s1 [s2 [s3 [s4 [s5 [s6 E]]]]]].
  destruct (Nat.eqb (length (test_results t)) 0); [discriminate|].
  injection H as <- <- <-.
  exists s1, s2, s3, s4, s5, s6. split; [exact E|].
  rewrite passed_all, E, forallb_app. simpl.
  now rewrite !andb_true_r, !andb_assoc.
Qed.

End HarnessFacts.

Lemma run_all_tests_summary_witness :
  run_all_tests dead_transport new_BackendTester tt
  = Some (false,
          mk_BackendTester
            [ ("Festival List API", false); ("Festival Detail API", false);
              ("DJ Profile API", false); ("NFT Moments API", false);
              ("Ticket Reservation API", false);
              ("Ticket Reservation Validation", false) ]
            JNull,
          tt)
  /\ exists s1 s2 s3 s4 s5 s6,
       [ ("Festival List API", false); ("Festival Detail API", false);
         ("DJ Profile API", false); ("NFT Moments API", false);
         ("Ticket Reservation API", false);
         ("Ticket Reservation Validation", false) ]
       = [] ++ [ ("Festival List API", s1); ("Festival Detail API", s2);
                 ("DJ Profile API", s3); ("NFT Moments API", s4);
                 ("Ticket Reservation API", s5);
                 ("Ticket Reservation Validation", s6) ]
       /\ false = (true && (s1 && s2 && s3 && s4 && s5 && s6))%bool.
Proof.
  assert (Hrun : run_all_tests dead_transport new_BackendTester tt
                 = Some (false,
                         mk_BackendTester
                           [ ("Festival List API", false); ("Festival Detail API", false);
                             ("DJ Profile API", false); ("NFT Moments API", false);
                             ("Ticket Reservation API", false);
                             ("Ticket Reservation Validation", false) ]
                           JNull,
                         tt)).
  { reflexivity. }
  split; [exact Hrun|].
  exact (run_all_tests_summary dead_transport _ _ _ _ _ Hrun).
Defined.

(** X14. Without a festival id from the listing check (none captured, or
    one that Python counts as false), the detail check and the reservation
    check fail at once: each logs a failure and sends no request. *)
Theorem checks_need_festival_id {T : Type} (send : request -> T -> reply * T)
    (self : BackendTester) (net : T) :
  py_truthy (festival_id self) = false ->
  test_festival_detail send self net
  = Some (log_test self "Festival Detail API" false, net)
  /\ test_ticket_reservation send self net
     = Some (log_test self "Ticket Reservation API" false, net).
Proof.
  intros Hfalse. unfold test_festival_detail, test_ticket_reservation.
  rewrite Hfalse. split; reflexivity.
Qed.

Lemma checks_need_festival_id_witness :
  py_truthy (festival_id (set_festival_id new_BackendTester (JStr ""))) = false
  /\ test_festival_detail (sample_transport sample_isoformat)
       (set_festival_id new_BackendTester (JStr "")) seeded_world
     = Some (log_test (set_festival_id new_BackendTester (JStr ""))
               "Festival Detail API" false,
             seeded_world)
  /\ test_ticket_reservation (sample_transport sample_isoformat)
       (set_festival_id new_BackendTester (JStr "")) seeded_world
     = Some (log_test (set_festival_id new_BackendTester (JStr ""))
               "Ticket Reservation API" false,
             seeded_world).
Proof.
  split; [reflexivity|].
  apply (checks_need_festival_id (sample_transport sample_isoformat)
           (set_festival_id new_BackendTester (JStr "")) seeded_world).
  reflexivity.
Defined.

(** X15. When every request fails at the network level, no check is
    aborted: the run completes with six failures logged, returns [False],
    and the script exits with status 1. *)
Theorem network_failures_are_logged {T : Type} (send : request -> T -> reply * T)
    (net : T) :
  (forall r n, send r n = (RequestException, n)) ->
  run_all_tests send new_BackendTester net
  = Some (false,
          mk_BackendTester
            [ ("Festival List API", false); ("Festival Detail API", false);
              ("DJ Profile API", false); ("NFT Moments API", false);
              ("Ticket Reservation API", false);
              ("Ticket Reservation Validation", false) ]
            JNull,
          net)
  /\ main send net = 1.
Proof.
  intros Hdead.
  assert (Hrun : run_all_tests send new_BackendTester net
                 = Some (false,
                         mk_BackendTester
                           [ ("Festival List API", false); ("Festival Detail API", false);
                             ("DJ Profile API", false); ("NFT Moments API", false);
                             ("Ticket Reservation API", false);
                             ("Ticket Reservation Validation", false) ]
                           JNull,
                         net)).
  { unfold run_all_tests, run_checks, test_festivals_list, test_festival_detail,
      test_dj_profile, test_nft_moments, test_ticket_reservation,
      test_ticket_reservation_validation.
    repeat (first [rewrite Hdead | progress cbn]). reflexivity. }
  split; [exact Hrun|].
  unfold main. now rewrite Hrun.
Qed.

Lemma network_failures_are_logged_witness :
  (forall r n, dead_transport r n = (RequestException, n))
  /\ main dead_transport tt = 1.
Proof.
  split; [reflexivity|].
  apply (network_failures_are_logged dead_transport tt). reflexivity.
Defined.

(** X16. The validation check never ends with an exception, whatever the
    reply, and it passes exactly when the reply has status 404. *)
Theorem validation_check_passes_on_404 {T : Type} (send : request -> T -> reply * T)
    (self : BackendTester) (net : T) :
  exists success net',
    test_ticket_reservation_validation send self net
    = Some (log_test self "Ticket Reservation Validation" success, net')
    /\ net' = snd (send (PostTicketReservation invalid_reservation) net)
    /\ (success = true
        <-> exists body, fst (send (PostTicketReservation invalid_reservation) net)
                         = Response 404 body).
Proof.
  unfold test_ticket_reservation_validation.
  destruct (send (PostTicketReservation invalid_reservation) net)
    as [[|status_code body] net'] eqn:E; simpl.
  - exists false, net'. repeat split; try discriminate.
    intros [b Hb]. discriminate Hb.
  - destruct (status_code =? 404) eqn:E404.
    + exists true, net'. apply Z.eqb_eq in E404. subst status_code.
      repeat split. intros _. now exists body.
    + exists false, net'. apply Z.eqb_neq in E404.
      repeat split; try discriminate.
      intros [b Hb]. injection Hb as Hs _. contradiction.
Qed.


(** ** What a passing check guarantees *)

Lemma passed_inv {T : Type} (self : BackendTester) (test_name : string)
    (success : bool) (net net' : T) :
  Some (log_test self test_name success, net)
  = Some (log_test self test_name true, net') ->
  success = true /\ net = net'.
Proof.
  intros H.
  assert (Hlog : test_results (log_test self test_name success)
                 = test_results (log_test self test_name true)) by congruence.
  assert (Hnet : net = net') by congruence.
  simpl in Hlog. apply app_inv_head in Hlog.
  injection Hlog as Hs. now split.
Qed.

Lemma py_eq_str_true (v : json) (s : string) : py_eq_str v s = true -> v = JStr s.
Proof.
  destruct v; simpl; try discriminate.
  intros H. apply String.eqb_eq in H. now subst.
Qed.

Lemma py_eq_int_true (v : json) (n : Z) :
  py_eq_int v n = true -> n <> 0 -> n <> 1 -> v = JInt n.
Proof.
  destruct v as [|b|m| | |]; simpl; try discriminate.
  - destruct b; intros H; apply Z.eqb_eq in H; congruence.
  - intros H _ _. apply Z.eqb_eq in H. now subst.
Qed.

Lemma items_of_spec (l : list json) (key : string) (vs : list json) :
  items_of l key = Some vs -> Forall2 (fun x v => py_getitem x key = Some v) l vs.
Proof.
  revert vs. induction l as [|x l IH]; intros vs H; simpl in H.
  - injection H as <-. constructor.
  - destruct (py_getitem x key) as [v|] eqn:Ev; [|discriminate].
    destruct (items_of l key) as [vs'|]; [|discriminate].
    injection H as <-. constructor; [exact Ev | now apply IH].
Qed.

Lemma all_start_with_spec (l : list json) (key prefix : string) :
  all_start_with l key prefix = Some true ->
  Forall (fun x => exists s, py_getitem x key = Some (JStr s)
                             /\ String.prefix prefix s = true) l.
Proof.
  induction l as [|x l IH]; intros H; simpl in H; [constructor|].
  destruct (py_getitem x key) as [v|] eqn:Ev; [|discriminate].
  destruct v as [| | |s| |]; simpl in H; try discriminate.
  destruct (String.prefix prefix s) eqn:Ep; [|discriminate].
  constructor; [now exists s | now apply IH].
Qed.

Lemma one_of_spec (v : json) (expected : list string) :
  existsb (fun e => py_eq_str v e) expected = true ->
  exists s, v = JStr s /\ In s expected.
Proof.
  intros H. apply existsb_exists in H. destruct H as [e [Hin He]].
  exists e. split; [now apply py_eq_str_true | exact Hin].
Qed.

Lemma Forall2_forallb_left (key : string) (P : json -> bool)
    (l vs : list json) :
  Forall2 (fun x v => py_getitem x key = Some v) l vs ->
  forallb P vs = true ->
  Forall (fun x => exists v, py_getitem x key = Some v /\ P v = true) l.
Proof.
  induction 1 as [|x v l vs Hx _ IH]; intros Hall; simpl in Hall; [constructor|].
  apply andb_prop in Hall. destruct Hall as [Hv Hrest].
  constructor; [now exists v | now apply IH].
Qed.

Lemma Forall2_found_left (key title : string) (l vs : list json) :
  Forall2 (fun x v => py_getitem x key = Some v) l vs ->
  existsb (fun t => py_eq_str t title) vs = true ->
  exists x, In x l /\ py_getitem x key = Some (JStr title).
Proof.
  induction 1 as [|x v l vs Hx _ IH]; intros Hex; simpl in Hex; [discriminate|].
  apply orb_prop in Hex. destruct Hex as [Hv|Hrest].
  - exists x. split; [now left|]. apply py_eq_str_true in Hv. now subst.
  - destruct (IH Hrest) as [y [Hin Hy]]. exists y. split; [now right | exact Hy].
Qed.

(** X17. A passing moments check means what it says: the reply had status
    200 and a list of at least three records; every record has an image that
    is a string starting with "data:image/svg+xml;base64," and a rarity among
    legendary, rare and common; and each of the three titles is the title of
    some record. *)
Theorem nft_check_sound {T : Type} (send : request -> T -> reply * T)
    (self : BackendTester) (net net' : T) :
  test_nft_moments send self net = Some (log_test self "NFT Moments API" true, net') ->
  exists nfts,
    send GetNFTMoments net = (Response 200 (JList nfts), net')
    /\ (3 <= length nfts)%nat
    /\ Forall (fun nft =>
                 (exists image, py_getitem nft "image_base64" = Some (JStr image)
                                /\ String.prefix "data:image/svg+xml;base64," image = true)
                 /\ (exists rarity, py_getitem nft "rarity" = Some (JStr rarity)
                                    /\ In rarity ["legendary"; "rare"; "common"]))
              nfts
    /\ Forall (fun title => exists nft, In nft nfts
                                        /\ py_getitem nft "title" = Some (JStr title))
              ["Sunrise Moment #001"; "Forest Echo #002"; "Unity Flow #003"].
Proof.
  unfold test_nft_moments. intros H.
  destruct (send GetNFTMoments net) as [[|status_code body] n1] eqn:Esend;
    [apply passed_inv in H; destruct H; discriminate|].
  destruct (status_code =? 200) eqn:Estatus;
    [|apply passed_inv in H; destruct H; discriminate].
  apply Z.eqb_eq in Estatus. subst status_code.
  destruct body as [| | | |[|nft rest]|];
    try (apply passed_inv in H; destruct H; discriminate).
  destruct (Nat.leb 3 (length (nft :: rest))) eqn:Elen;
    [|apply passed_inv in H; destruct H; discriminate].
  apply Nat.leb_le in Elen.
  destruct (missing_fields _ nft) as [[|? ?]|]; try discriminate H;
    [|apply passed_inv in H; destruct H; discriminate].
  destruct (items_of (nft :: rest) "title") as [nft_titles|] eqn:Etitles;
    [|discriminate].
  destruct (forallb _ ["Sunrise Moment #001"; "Forest Echo #002"; "Unity Flow #003"])
    eqn:Eexpected; [|apply passed_inv in H; destruct H; discriminate].
  destruct (all_start_with (nft :: rest) "image_base64" "data:image/svg+xml;base64,")
    as [[|]|] eqn:Eimages; try discriminate H;
    [|apply passed_inv in H; destruct H; discriminate].
  destruct (items_of (nft :: rest) "rarity") as [rarities|] eqn:Erarities;
    [|discriminate].
  destruct (forallb _ rarities) eqn:Erarity;
    [|apply passed_inv in H; destruct H; discriminate].
  apply passed_inv in H. destruct H as [_ <-].
  exists (nft :: rest). split; [reflexivity|]. split; [exact Elen|].
  apply items_of_spec in Etitles, Erarities.
  apply all_start_with_spec in Eimages.
  pose proof (Forall2_forallb_left _ _ _ _ Erarities Erarity) as Hrar.
  split.
  - rewrite Forall_forall in *. intros x Hx. split; [now apply Eimages|].
    destruct (Hrar x Hx) as [v [Hv Hone]].
    apply one_of_spec in Hone. destruct Hone as [s [-> Hs]]. now exists s.
  - rewrite forallb_forall in Eexpected. rewrite Forall_forall. intros title Hin.
    apply (Forall2_found_left _ _ _ _ Etitles). now apply Eexpected.
Qed.

(** X18. A passing reservation check means what it says: a festival id was
    at hand, the request carried it with ticket type early_bird and quantity
    2, the reply had status 200, and its body carries total_price 30000, the
    name, email, ticket type and quantity of the request and the status
    "pending". *)
Theorem reservation_check_sound {T : Type} (send : request -> T -> reply * T)
    (self : BackendTester) (net net' : T) :
  test_ticket_reservation send self net
  = Some (log_test self "Ticket Reservation API" true, net') ->
  py_truthy (festival_id self) = true
  /\ exists reservation,
       send (PostTicketReservation (reservation_data (festival_id self))) net
       = (Response 200 reservation, net')
       /\ py_getitem reservation "total_price" = Some (JInt 30000)
       /\ py_getitem reservation "name" = Some (JStr "田中太郎")
       /\ py_getitem reservation "email" = Some (JStr "tanaka.taro@example.com")
       /\ py_getitem reservation "ticket_type" = Some (JStr "early_bird")
       /\ py_getitem reservation "quantity" = Some (JInt 2)
       /\ py_getitem reservation "status" = Some (JStr "pending").
Proof.
  unfold test_ticket_reservation. intros H.
  destruct (py_truthy (festival_id self)) eqn:Eid; simpl negb in H; cbv iota in H;
    [|apply passed_inv in H; destruct H; discriminate].
  split; [reflexivity|].
  destruct (send (PostTicketReservation (reservation_data (festival_id self))) net)
    as [[|status_code reservation] n1] eqn:Esend;
    [apply passed_inv in H; destruct H; discriminate|].
  destruct (status_code =? 200) eqn:Estatus;
    [|apply passed_inv in H; destruct H; discriminate].
  apply Z.eqb_eq in Estatus. subst status_code.
  destruct (missing_fields _ reservation) as [[|? ?]|]; try discriminate H;
    [|apply passed_inv in H; destruct H; discriminate].
  destruct (py_getitem reservation "total_price") as [total_price|] eqn:Gprice;
    [|discriminate].
  destruct (py_getitem reservation "name") as [name|] eqn:Gname; [|discriminate].
  destruct (py_getitem reservation "email") as [email|] eqn:Gemail; [|discriminate].
  destruct (py_getitem reservation "ticket_type") as [ticket_type|] eqn:Gtype;
    [|discriminate].
  destruct (py_getitem reservation "quantity") as [quantity|] eqn:Gquantity;
    [|discriminate].
  destruct (py_getitem reservation "status") as [status|] eqn:Gstatus; [|discriminate].
  destruct (py_eq_int total_price (15000 * 2)) eqn:Eprice;
    [|apply passed_inv in H; destruct H; discriminate].
  match type of H with
  | (if ?c then _ else _) = _ =>
      destruct c eqn:Efields; [|apply passed_inv in H; destruct H; discriminate]
  end.
  apply passed_inv in H. destruct H as [_ <-].
  apply andb_prop in Efields. destruct Efields as [Efields Estatus].
  apply andb_prop in Efields. destruct Efields as [Efields Equantity].
  apply andb_prop in Efields. destruct Efields as [Efields Etype].
  apply andb_prop in Efields. destruct Efields as [Ename Eemail].
  apply py_eq_int_true in Eprice; [|discriminate|discriminate].
  apply py_eq_int_true in Equantity; [|discriminate|discriminate].
  apply py_eq_str_true in Ename, Eemail, Etype, Estatus. subst.
  exists reservation. repeat split; assumption.
Qed.

Lemma missing_fields_head (field : string) (fields : list string) (v : json) :
  missing_fields (field :: fields) v = Some [] -> py_contains v field = Some true.
Proof.
  simpl. destruct (py_contains v field) as [[|]|]; try discriminate; [reflexivity|].
  destruct (missing_fields fields v); discriminate.
Qed.

(** X19. A passing listing check means what it says: the reply had status
    200 and a non-empty list whose first festival is named "Moment Festival"
    with year 2025, and the id the tester keeps for the later checks is the
    id of that first festival. *)
Theorem festivals_list_check_sound {T : Type} (send : request -> T -> reply * T)
    (self self' : BackendTester) (net net' : T) :
  test_festivals_list send self net = Some (self', net') ->
  test_results self' = test_results self ++ [("Festival List API", true)] ->
  exists first rest,
    send GetFestivals net = (Response 200 (JList (first :: rest)), net')
    /\ py_getitem first "id" = Some (festival_id self')
    /\ py_getitem first "name" = Some (JStr "Moment Festival")
    /\ py_getitem first "year" = Some (JInt 2025).
Proof.
  unfold test_festivals_list. intros H Hpass.
  assert (Hfail : forall (t : BackendTester) (n : T),
             Some (log_test t "Festival List API" false, n) = Some (self', net') ->
             test_results t = test_results self -> False).
  { intros t n Heq Hres. injection Heq as <- _. simpl in Hpass.
    rewrite Hres in Hpass. apply app_inv_head in Hpass. discriminate Hpass. }
  destruct (send GetFestivals net) as [[|status_code body] n1] eqn:Esend;
    [exfalso; now apply (Hfail _ _ H)|].
  destruct (status_code =? 200) eqn:Estatus; [|exfalso; now apply (Hfail _ _ H)].
  apply Z.eqb_eq in Estatus. subst status_code.
  destruct body as [| | | |[|first rest]|]; try (exfalso; now apply (Hfail _ _ H)).
  destruct (py_get first "id" JNull) as [id|] eqn:Eid; [|discriminate].
  destruct (missing_fields _ first) as [[|? ?]|] eqn:Emissing; try discriminate H;
    [|exfalso; now apply (Hfail _ _ H)].
  destruct (py_getitem first "name") as [name|] eqn:Ename; [|discriminate].
  destruct (py_getitem first "year") as [year|] eqn:Eyear; [|discriminate].
  destruct (py_eq_str name "Moment Festival" && py_eq_int year 2025)%bool eqn:Eseed;
    [|exfalso; now apply (Hfail _ _ H)].
  injection H as <- <-.
  apply andb_prop in Eseed. destruct Eseed as [Hname Hyear].
  apply py_eq_str_true in Hname. apply py_eq_int_true in Hyear; [|discriminate..].
  subst name year.
  exists first, rest. split; [reflexivity|]. split; [|split; assumption].
  apply missing_fields_head in Emissing.
  destruct first as [| | | | |members]; try discriminate Eid.
  simpl in *. destruct (member members "id") as [x|]; [|discriminate Emissing].
  injection Eid as <-. reflexivity.
Qed.

(** ** The harness against the service *)


(** ** The sample transport *)

Lemma parse_reservation_request_json (reservation_data : TicketReservationCreate.t) :
  parse_reservation_request (reservation_request_json reservation_data)
  = Some reservation_data.
Proof. now destruct reservation_data. Qed.




Lemma sample_nft_check :
  test_nft_moments (sample_transport sample_isoformat) new_BackendTester seeded_world
  = Some (log_test new_BackendTester "NFT Moments API" true,
          snd (get_nft_moments seeded_world)).
Proof. reflexivity. Qed.

Lemma nft_check_sound_witness :
  test_nft_moments (sample_transport sample_isoformat) new_BackendTester seeded_world
  = Some (log_test new_BackendTester "NFT Moments API" true,
          snd (get_nft_moments seeded_world))
  /\ exists nfts,
       sample_transport sample_isoformat GetNFTMoments seeded_world
       = (Response 200 (JList nfts), snd (get_nft_moments seeded_world))
       /\ (3 <= length nfts)%nat.
Proof.
  split; [exact sample_nft_check|].
  destruct (nft_check_sound (sample_transport sample_isoformat) _ _ _ sample_nft_check)
    as [nfts [Hsend [Hlen _]]].
  exists nfts. split; [exact Hsend | exact Hlen].
Defined.

Lemma sample_reservation_check :
  test_ticket_reservation (sample_transport sample_isoformat)
    (set_festival_id new_BackendTester (JStr "uuid-0")) seeded_world
  = Some (log_test (set_festival_id new_BackendTester (JStr "uuid-0"))
            "Ticket Reservation API" true,
          after_reservation (sample_request "uuid-0") seeded_world).
Proof. reflexivity. Qed.

Lemma reservation_check_sound_witness :
  test_ticket_reservation (sample_transport sample_isoformat)
    (set_festival_id new_BackendTester (JStr "uuid-0")) seeded_world
  = Some (log_test (set_festival_id new_BackendTester (JStr "uuid-0"))
            "Ticket Reservation API" true,
          after_reservation (sample_request "uuid-0") seeded_world)
  /\ exists reservation,
       sample_transport sample_isoformat
         (PostTicketReservation (reservation_data (JStr "uuid-0"))) seeded_world
       = (Response 200 reservation,
          after_reservation (sample_request "uuid-0") seeded_world)
       /\ py_getitem reservation "total_price" = Some (JInt 30000).
Proof.
  split; [exact sample_reservation_check|].
  destruct (reservation_check_sound (sample_transport sample_isoformat) _ _ _
              sample_reservation_check)
    as [_ [reservation [Hsend [Hprice _]]]].
  exists reservation. split; [exact Hsend | exact Hprice].
Defined.

Lemma sample_list_check :
  test_festivals_list (sample_transport sample_isoformat) new_BackendTester seeded_world
  = Some (log_test (set_festival_id new_BackendTester (JStr "uuid-0"))
            "Festival List API" true,
          seeded_world).
Proof. reflexivity. Qed.

Lemma festivals_list_check_sound_witness :
  test_festivals_list (sample_transport sample_isoformat) new_BackendTester seeded_world
  = Some (log_test (set_festival_id new_BackendTester (JStr "uuid-0"))
            "Festival List API" true,
          seeded_world)
  /\ test_results (log_test (set_festival_id new_BackendTester (JStr "uuid-0"))
                     "Festival List API" true)
     = test_results new_BackendTester ++ [("Festival List API", true)]
  /\ exists first rest,
       sample_transport sample_isoformat GetFestivals seeded_world
       = (Response 200 (JList (first :: rest)), seeded_world)
       /\ py_getitem first "id" = Some (JStr "uuid-0").
Proof.
  split; [exact sample_list_check|].
  split; [reflexivity|].
  destruct (festivals_list_check_sound (sample_transport sample_isoformat) _ _ _ _
              sample_list_check eq_refl)
    as [first [rest [Hsend [Hid _]]]].
  exists first, rest. split; [exact Hsend | exact Hid].
Defined.


Lemma all_in_spec (keys : list string) (v : json) :
  all_in keys v = Some true -> Forall (fun key => py_contains v key = Some true) keys.
Proof.
  induction keys as [|key keys IH]; intros H; simpl in H; [constructor|].
  destruct (py_contains v key) as [[|]|] eqn:E; try discriminate.
  constructor; [exact E | now apply IH].
Qed.

Lemma contains_object_keys (members : list (string * json)) (keys : list string) :
  Forall (fun key => py_contains (JObject members) key = Some true) keys ->
  Forall (fun key => member members key <> None) keys.
Proof.
  apply Forall_impl. intros key H. simpl in H.
  destruct (member members key); [discriminate | discriminate H].
Qed.

(** X21. What a passing detail check guarantees: a festival id was at hand,
    the reply to the request for it had status 200, and in its body [name] is
    "Moment Festival", [venue_info] has the name "フォレスト・イン洞川",
    [sound_system] has the primary "Alcons Audio", [len] of [family_services]
    is at least 4 and each of the four ticket types is [in] [ticket_info].
    The check does not look at the JSON type of these last two values; when
    [family_services] is a list it has at least four entries, and when
    [ticket_info] is an object the four ticket types are keys of it. *)
Theorem festival_detail_check_sound {T : Type} (send : request -> T -> reply * T)
    (self : BackendTester) (net net' : T) :
  test_festival_detail send self net
  = Some (log_test self "Festival Detail API" true, net') ->
  py_truthy (festival_id self) = true
  /\ exists festival venue_info sound_system family_services services ticket_info,
       send (GetFestivalDetail (festival_id self)) net = (Response 200 festival, net')
       /\ py_get festival "name" JNull = Some (JStr "Moment Festival")
       /\ py_get festival "venue_info" (JObject []) = Some venue_info
       /\ py_get venue_info "name" JNull = Some (JStr "フォレスト・イン洞川")
       /\ py_get festival "sound_system" (JObject []) = Some sound_system
       /\ py_get sound_system "primary" JNull = Some (JStr "Alcons Audio")
       /\ py_get festival "family_services" (JList []) = Some family_services
       /\ py_len family_services = Some services
       /\ (4 <= services)%nat
       /\ py_get festival "ticket_info" (JObject []) = Some ticket_info
       /\ Forall (fun ticket => py_contains ticket_info ticket = Some true)
            ["early_bird"; "regular"; "vip"; "family"]
       /\ (forall entries, family_services = JList entries ->
                           (4 <= length entries)%nat)
       /\ (forall members, ticket_info = JObject members ->
                           Forall (fun ticket => member members ticket <> None)
                             ["early_bird"; "regular"; "vip"; "family"]).
Proof.
  unfold test_festival_detail. intros H.
  destruct (py_truthy (festival_id self)) eqn:Eid; simpl negb in H; cbv iota in H;
    [|apply passed_inv in H; destruct H; discriminate].
  split; [reflexivity|].
  destruct (send (GetFestivalDetail (festival_id self)) net)
    as [[|status_code festival] n1] eqn:Esend;
    [apply passed_inv in H; destruct H; discriminate|].
  destruct (status_code =? 200) eqn:Estatus;
    [|apply passed_inv in H; destruct H; discriminate].
  apply Z.eqb_eq in Estatus. subst status_code.
  destruct (py_get festival "name" JNull) as [name|] eqn:Gname; [|discriminate].
  destruct (py_eq_str name "Moment Festival") eqn:Ename;
    [|apply passed_inv in H; destruct H; discriminate].
  destruct (py_get festival "venue_info" (JObject [])) as [venue_info|] eqn:Gvenue;
    [|discriminate].
  destruct (py_get venue_info "name" JNull) as [venue_name|] eqn:Gvname; [|discriminate].
  destruct (py_eq_str venue_name "フォレスト・イン洞川") eqn:Evname;
    [|apply passed_inv in H; destruct H; discriminate].
  destruct (py_get festival "sound_system" (JObject [])) as [sound_system|] eqn:Gsound;
    [|discriminate].
  destruct (py_get sound_system "primary" JNull) as [primary|] eqn:Gprimary;
    [|discriminate].
  destruct (py_eq_str primary "Alcons Audio") eqn:Eprimary;
    [|apply passed_inv in H; destruct H; discriminate].
  destruct (py_get festival "family_services" (JList [])) as [family_services|]
    eqn:Gfamily; [|discriminate].
  destruct (py_len family_services) as [services|] eqn:Glen; [|discriminate].
  destruct (Nat.leb 4 services) eqn:Eservices;
    [|apply passed_inv in H; destruct H; discriminate].
  destruct (py_get festival "ticket_info" (JObject [])) as [ticket_info|] eqn:Gticket;
    [|discriminate].
  destruct (all_in ["early_bird"; "regular"; "vip"; "family"] ticket_info)
    as [[|]|] eqn:Eall; try discriminate H.
  2:{ destruct (py_has_keys ticket_info); [|discriminate].
      apply passed_inv in H. destruct H; discriminate. }
  apply passed_inv in H. destruct H as [_ <-].
  apply py_eq_str_true in Ename, Evname, Eprimary. subst.
  apply Nat.leb_le in Eservices. apply all_in_spec in Eall.
  exists festival, venue_info, sound_system, family_services, services, ticket_info.
  repeat (split; [first [reflexivity | assumption]|]).
  split.
  - intros entries ->. simpl in Glen. injection Glen as <-. exact Eservices.
  - intros members ->. now apply contains_object_keys.
Qed.

(** X22. What a passing profile check guarantees: the reply had status 200
    and in its body [stage_name] is "DJ Senoh" and [name] is "Mike Senoh",
    each of meditation, awareness and permanence is [in] [philosophy], [len]
    of [timeline] is at least 6, and each of soundcloud, facebook, instagram
    and twitter is [in] [social_links].  The check does not look at the JSON
    type of these three values; when [philosophy] and [social_links] are
    objects the names are keys of them, and when [timeline] is a list it has
    at least six entries. *)
Theorem dj_profile_check_sound {T : Type} (send : request -> T -> reply * T)
    (self : BackendTester) (net net' : T) :
  test_dj_profile send self net = Some (log_test self "DJ Profile API" true, net') ->
  exists profile philosophy timeline entries social_links,
    send GetDJProfileRequest net = (Response 200 profile, net')
    /\ py_get profile "stage_name" JNull = Some (JStr "DJ Senoh")
    /\ py_get profile "name" JNull = Some (JStr "Mike Senoh")
    /\ py_get profile "philosophy" (JObject []) = Some philosophy
    /\ Forall (fun key => py_contains philosophy key = Some true)
         ["meditation"; "awareness"; "permanence"]
    /\ py_get profile "timeline" (JList []) = Some timeline
    /\ py_len timeline = Some entries
    /\ (6 <= entries)%nat
    /\ py_get profile "social_links" (JObject []) = Some social_links
    /\ Forall (fun social => py_contains social_links social = Some true)
         ["soundcloud"; "facebook"; "instagram"; "twitter"]
    /\ (forall members, philosophy = JObject members ->
                        Forall (fun key => member members key <> None)
                          ["meditation"; "awareness"; "permanence"])
    /\ (forall items, timeline = JList items -> (6 <= length items)%nat)
    /\ (forall members, social_links = JObject members ->
                        Forall (fun social => member members social <> None)
                          ["soundcloud"; "facebook"; "instagram"; "twitter"]).
Proof.
  unfold test_dj_profile. intros H.
  destruct (send GetDJProfileRequest net) as [[|status_code profile] n1] eqn:Esend;
    [apply passed_inv in H; destruct H; discriminate|].
  destruct (status_code =? 200) eqn:Estatus;
    [|apply passed_inv in H; destruct H; discriminate].
  apply Z.eqb_eq in Estatus. subst status_code.
  destruct (missing_fields _ profile) as [[|? ?]|]; try discriminate H;
    [|apply passed_inv in H; destruct H; discriminate].
  destruct (py_get profile "stage_name" JNull) as [stage_name|] eqn:Gstage;
    [|discriminate].
  destruct (py_eq_str stage_name "DJ Senoh") eqn:Estage; simpl andb in H;
    [|apply passed_inv in H; destruct H; discriminate].
  destruct (py_get profile "name" JNull) as [name|] eqn:Gname;
    [|apply passed_inv in H; destruct H; discriminate].
  destruct (py_eq_str name "Mike Senoh") eqn:Ename;
    [|apply passed_inv in H; destruct H; discriminate].
  destruct (py_get profile "philosophy" (JObject [])) as [philosophy|] eqn:Gphilosophy;
    [|discriminate].
  destruct (all_in ["meditation"; "awareness"; "permanence"] philosophy)
    as [[|]|] eqn:Ephilosophy; try discriminate H.
  2:{ destruct (py_has_keys philosophy); [|discriminate].
      apply passed_inv in H. destruct H; discriminate. }
  destruct (py_get profile "timeline" (JList [])) as [timeline|] eqn:Gtimeline;
    [|discriminate].
  destruct (py_len timeline) as [entries|] eqn:Glen; [|discriminate].
  destruct (Nat.leb 6 entries) eqn:Eentries;
    [|apply passed_inv in H; destruct H; discriminate].
  destruct (py_get profile "social_links" (JObject [])) as [social_links|] eqn:Gsocial;
    [|discriminate].
  destruct (all_in ["soundcloud"; "facebook"; "instagram"; "twitter"] social_links)
    as [[|]|] eqn:Esocial; try discriminate H.
  2:{ destruct (py_has_keys social_links); [|discriminate].
      apply passed_inv in H. destruct H; discriminate. }
  apply passed_inv in H. destruct H as [_ <-].
  apply py_eq_str_true in Estage, Ename. subst.
  apply Nat.leb_le in Eentries. apply all_in_spec in Ephilosophy, Esocial.
  exists profile, philosophy, timeline, entries, social_links.
  repeat (split; [first [reflexivity | assumption]|]).
  split; [|split].
  - intros members ->. now apply contains_object_keys.
  - intros items ->. simpl in Glen. injection Glen as <-. exact Eentries.
  - intros members ->. now apply contains_object_keys.
Qed.

Lemma sample_detail_check :
  test_festival_detail (sample_transport sample_isoformat)
    (set_festival_id new_BackendTester (JStr "uuid-0")) seeded_world
  = Some (log_test (set_festival_id new_BackendTester (JStr "uuid-0"))
            "Festival Detail API" true,
          seeded_world).
Proof. reflexivity. Qed.

Lemma festival_detail_check_sound_witness :
  test_festival_detail (sample_transport sample_isoformat)
    (set_festival_id new_BackendTester (JStr "uuid-0")) seeded_world
  = Some (log_test (set_festival_id new_BackendTester (JStr "uuid-0"))
            "Festival Detail API" true,
          seeded_world)
  /\ exists festival,
       sample_transport sample_isoformat (GetFestivalDetail (JStr "uuid-0")) seeded_world
       = (Response 200 festival, seeded_world)
       /\ py_get festival "name" JNull = Some (JStr "Moment Festival").
Proof.
  split; [exact sample_detail_check|].
  destruct (festival_detail_check_sound (sample_transport sample_isoformat) _ _ _
              sample_detail_check)
    as [_ [festival [_ [_ [_ [_ [_ [Hsend [Hname _]]]]]]]]].
  exists festival. split; [exact Hsend | exact Hname].
Defined.

Lemma sample_profile_check :
  test_dj_profile (sample_transport sample_isoformat) new_BackendTester seeded_world
  = Some (log_test new_BackendTester "DJ Profile API" true, seeded_world).
Proof. reflexivity. Qed.

Lemma dj_profile_check_sound_witness :
  test_dj_profile (sample_transport sample_isoformat) new_BackendTester seeded_world
  = Some (log_test new_BackendTester "DJ Profile API" true, seeded_world)
  /\ exists profile,
       sample_transport sample_isoformat GetDJProfileRequest seeded_world
       = (Response 200 profile, seeded_world)
       /\ py_get profile "stage_name" JNull = Some (JStr "DJ Senoh").
Proof.
  split; [exact sample_profile_check|].
  destruct (dj_profile_check_sound (sample_transport sample_isoformat) _ _ _
              sample_profile_check)
    as [profile [_ [_ [_ [_ [Hsend [Hstage _]]]]]]].
  exists profile. split; [exact Hsend | exact Hstage].
Defined.
